(** * Perceiver (modeling_perceiver.py): a shallow embedding and its properties

    The development follows [src/transformers/models/perceiver/modeling_perceiver.py].
    Python exceptions are values of [pyerror] carried by the [result] monad;
    tensors are a shape together with an indexing function into the reals
    (floating-point rounding is not modelled); dictionaries keyed by modality
    name are [gmap string _], iterated in [sorted] order where the source
    sorts them. *)

From Stdlib Require Import ZArith List String Reals Lia Lra Bool.
From stdpp Require Import gmap strings sorting list pretty.

Local Open Scope nat_scope.

(** ** Python exceptions and the error monad *)

Inductive pyerror : Type :=
| ValueError (msg : string)
| TypeError (msg : string)
| IndexError (msg : string)
| KeyError (key : string)
| ZeroDivisionError
| RuntimeError (msg : string)
| AttributeError (msg : string)
| AssertionError.

Inductive result (A : Type) : Type :=
| Ok (a : A)
| Raise (e : pyerror).
Arguments Ok {A} a.
Arguments Raise {A} e.

#[export] Instance result_ret : MRet result := fun A a => Ok a.
#[export] Instance result_bind : MBind result := fun A B f m =>
  match m with
  | Ok a => f a
  | Raise e => Raise e
  end.

#[export] Instance result_fmap : FMap result := fun A B f m =>
  match m with
  | Ok a => Ok (f a)
  | Raise e => Raise e
  end.

Definition is_ok {A} (r : result A) : bool :=
  match r with Ok _ => true | Raise _ => false end.

Definition is_ValueError {A} (r : result A) : bool :=
  match r with Raise (ValueError _) => true | _ => false end.

(** ** Tensors

    A tensor is its [shape] and the value stored at every multi-index.  Values
    outside the shape are irrelevant: [tensor_eq] compares two tensors on their
    shape and on the in-range indices only. *)

Record tensor : Type := Tensor { shape : list nat; data : list nat -> R }.

Definition rank (t : tensor) : nat := length (shape t).

Definition in_range (sh idx : list nat) : Prop := Forall2 lt idx sh.

Definition tensor_eq (t u : tensor) : Prop :=
  shape t = shape u /\ forall idx, in_range (shape t) idx -> data t idx = data u idx.

(** [x.shape[-1]] *)
Definition last_dim (t : tensor) : result nat :=
  match last (shape t) with
  | Some d => Ok d
  | None => Raise (IndexError "tuple index out of range")
  end.

(** A Python dimension argument ([dim=-1], [dim=1]) resolved against a rank. *)
Definition resolve_dim (dim : Z) (rk : nat) : result nat :=
  if ((- Z.of_nat rk <=? dim) && (dim <? Z.of_nat rk))%Z
  then Ok (Z.to_nat (dim mod Z.of_nat rk))
  else Raise (IndexError "Dimension out of range").

(** [t[:, start:stop]] on a tensor of rank at least two; the bounds are
    clipped to the axis length as Python slices are. *)
Definition slice_dim1 (t : tensor) (start stop : nat) : result tensor :=
  match shape t with
  | b :: n :: rest =>
      let lo := start `min` n in
      let hi := stop `min` n in
      Ok (Tensor (b :: (hi - lo) :: rest)
            (fun idx => match idx with
                        | i :: j :: r => data t (i :: (lo + j) :: r)
                        | _ => 0%R
                        end))
  | _ => Raise (IndexError "too many indices for tensor")
  end.

(** Concatenation of two tensors along axis [d]: the ranks and every other
    axis must agree. *)
Definition cat2 (d : nat) (a b : tensor) : result tensor :=
  let sa := shape a in
  let sb := shape b in
  match sa !! d, sb !! d with
  | Some na, Some nb =>
      if decide (length sa = length sb /\ take d sa = take d sb
                 /\ drop (S d) sa = drop (S d) sb)
      then Ok (Tensor (<[d := na + nb]> sa)
                 (fun idx => match idx !! d with
                             | Some j => if j <? na then data a idx
                                         else data b (<[d := j - na]> idx)
                             | None => 0%R
                             end))
      else Raise (RuntimeError "Sizes of tensors must match except in the concatenation dimension")
  | _, _ => Raise (IndexError "Dimension out of range")
  end.

Fixpoint cat_from (d : nat) (acc : tensor) (ts : list tensor) : result tensor :=
  match ts with
  | [] => Ok acc
  | t :: rest => acc' ← cat2 d acc t; cat_from d acc' rest
  end.

(** [torch.cat(tensors, dim)]; an empty list of tensors is an error. *)
Definition torch_cat (ts : list tensor) (dim : Z) : result tensor :=
  match ts with
  | [] => Raise (RuntimeError "torch.cat(): expected a non-empty list of Tensors")
  | t :: rest => d ← resolve_dim dim (rank t); cat_from d t rest
  end.

(** ** Dictionaries keyed by modality name *)

Definition str_le (a b : string) : Prop := String.leb a b = true.

#[export] Instance str_le_dec (a b : string) : Decision (str_le a b).
Proof. unfold str_le. apply _. Defined.

(** [sorted(d.keys())] *)
Definition sorted_keys {V} (d : gmap string V) : list string :=
  merge_sort str_le (elements (dom d)).

(** [d[k]] *)
Definition dict_get {V} (d : gmap string V) (k : string) : result V :=
  match d !! k with
  | Some v => Ok v
  | None => Raise (KeyError k)
  end.

(** ** [restructure] (lines 1837-1856) *)

Fixpoint restructure_loop (modality_sizes : gmap string nat) (inputs : tensor)
    (keys : list string) (index : nat) (outputs : gmap string tensor)
    : result (gmap string tensor) :=
  match keys with
  | [] => Ok outputs
  | modality :: keys' =>
      size ← dict_get modality_sizes modality;
      inp ← slice_dim1 inputs index (index + size);
      restructure_loop modality_sizes inputs keys' (index + size)
        (<[modality := inp]> outputs)
  end.

Definition restructure (modality_sizes : gmap string nat) (inputs : tensor)
    : result (gmap string tensor) :=
  restructure_loop modality_sizes inputs (sorted_keys modality_sizes) 0 ∅.

(** The re-concatenation used on the encode side (lines 2759-2763):
    [torch.cat([padded[k] for k in sorted(padded.keys())], dim=1)]. *)
Definition concat_sorted (padded : gmap string tensor) : result tensor :=
  padded_ls ← mapM (dict_get padded) (sorted_keys padded);
  torch_cat padded_ls 1.

(** [sum(modality_sizes.values())] *)
Definition total_size (modality_sizes : gmap string nat) : nat :=
  map_fold (fun _ size acc => size + acc) 0 modality_sizes.

(** ** More tensor operations of the framework *)

(** Number of elements of a shape. *)
Definition numel (sh : list nat) : nat := foldr Nat.mul 1 sh.

(** Row-major flat offset of a multi-index, and its inverse
    ([np.unravel_index] for an offset below [numel sh]). *)
Fixpoint ravel (sh idx : list nat) : nat :=
  match sh, idx with
  | _ :: sh', i :: idx' => i * numel sh' + ravel sh' idx'
  | _, _ => 0
  end.

Fixpoint unravel (sh : list nat) (p : nat) : list nat :=
  match sh with
  | [] => []
  | _ :: sh' => p / numel sh' :: unravel sh' (p mod numel sh')
  end.

(** Elementwise map. *)
Definition tmap (f : R -> R) (t : tensor) : tensor :=
  Tensor (shape t) (fun idx => f (data t idx)).

(** Broadcasting: shapes are aligned on the right; two axes are compatible
    when they are equal or one of them is 1. *)
Fixpoint bshape_rev (a b : list nat) : option (list nat) :=
  match a, b with
  | [], _ => Some b
  | _, [] => Some a
  | x :: a', y :: b' =>
      r ← bshape_rev a' b';
      if decide (x = y) then Some (x :: r)
      else if decide (x = 1) then Some (y :: r)
      else if decide (y = 1) then Some (x :: r)
      else None
  end.

Definition broadcast_shapes (a b : list nat) : option (list nat) :=
  reverse <$> bshape_rev (reverse a) (reverse b).

(** Index into an operand of shape [sh] for the index [idx] of the
    broadcast result. *)
Definition bindex (sh idx : list nat) : list nat :=
  zip_with (fun d i => if decide (d = 1) then 0 else i)
    sh (drop (length idx - length sh) idx).

Definition broadcast_op (f : R -> R -> R) (a b : tensor) : result tensor :=
  match broadcast_shapes (shape a) (shape b) with
  | Some sh =>
      Ok (Tensor sh (fun idx =>
            f (data a (bindex (shape a) idx)) (data b (bindex (shape b) idx))))
  | None => Raise (RuntimeError "The size of tensor a must match the size of tensor b")
  end.

Definition tensor_add : tensor -> tensor -> result tensor := broadcast_op Rplus.
Definition tensor_mul : tensor -> tensor -> result tensor := broadcast_op Rmult.

(** [t.expand] and [torch.broadcast_to(t, sizes)]: [-1] keeps an
    existing axis; other sizes must equal the axis or the axis must be 1.
    Both lists are taken reversed. *)
Fixpoint expand_shape_rev (sh : list nat) (sizes : list Z) : result (list nat) :=
  match sizes, sh with
  | [], [] => Ok []
  | [], _ :: _ =>
      Raise (RuntimeError "the number of sizes provided must be greater or equal to the number of dimensions")
  | s :: sizes', [] =>
      if (s <? 0)%Z
      then Raise (RuntimeError "expanded size -1 is not allowed in a leading, non-existing dimension")
      else r ← expand_shape_rev [] sizes'; Ok (Z.to_nat s :: r)
  | s :: sizes', d :: sh' =>
      r ← expand_shape_rev sh' sizes';
      if (s =? -1)%Z then Ok (d :: r)
      else if decide (Z.of_nat d = s) then Ok (d :: r)
      else if decide (d = 1 /\ (0 <= s)%Z) then Ok (Z.to_nat s :: r)
      else Raise (RuntimeError "The expanded size of the tensor must match the existing size")
  end.

Definition expand (t : tensor) (sizes : list Z) : result tensor :=
  sh ← expand_shape_rev (reverse (shape t)) (reverse sizes);
  Ok (Tensor (reverse sh) (fun idx => data t (bindex (shape t) idx))).

(** [torch.reshape(t, target)] with at most one inferred ([-1]) axis. *)
Definition known_size (target : list Z) : nat :=
  numel (Z.to_nat <$> filter (fun s => s <> (-1)%Z) target).

Definition infer_shape (target : list Z) (n : nat) : result (list nat) :=
  if decide (Exists (fun s => (s < -1)%Z) target)
  then Raise (RuntimeError "invalid shape dimension")
  else
    let inferred := length (filter (fun s => s = (-1)%Z) target) in
    let newsize := known_size target in
    match inferred with
    | 0 => if decide (newsize = n) then Ok (Z.to_nat <$> target)
           else Raise (RuntimeError "shape is invalid for input size")
    | 1 => if decide (newsize = 0)
           then (if decide (n = 0)
                 then Raise (RuntimeError "cannot reshape tensor of 0 elements: the unspecified dimension size -1 can be any value and is ambiguous")
                 else Raise (RuntimeError "shape is invalid for input size"))
           else if decide (n mod newsize = 0)
           then Ok ((fun s => if decide (s = (-1)%Z) then n / newsize else Z.to_nat s) <$> target)
           else Raise (RuntimeError "shape is invalid for input size")
    | _ => Raise (RuntimeError "only one dimension can be inferred")
    end.

Definition reshape (t : tensor) (target : list Z) : result tensor :=
  sh ← infer_shape target (numel (shape t));
  Ok (Tensor sh (fun idx => data t (unravel (shape t) (ravel sh idx)))).

(** [t[None]]-style insertion of an axis of length one at position [d]. *)
Definition unsqueeze (t : tensor) (d : nat) : result tensor :=
  if decide (d <= rank t)
  then Ok (Tensor (take d (shape t) ++ 1 :: drop d (shape t))
             (fun idx => data t (delete d idx)))
  else Raise (IndexError "too many indices for tensor").

(** [t[0, :, :]]: integer index 0 on the first axis of a tensor of rank at
    least three. *)
Definition select_first (t : tensor) : result tensor :=
  match shape t with
  | b :: n :: d :: rest =>
      if decide (b = 0)
      then Raise (IndexError "index 0 is out of bounds for dimension 0 with size 0")
      else Ok (Tensor (n :: d :: rest) (fun idx => data t (0 :: idx)))
  | _ => Raise (IndexError "too many indices for tensor")
  end.

(** [torch.stack(tensors, dim)]: all tensors have one shape; a new axis of
    length [len(tensors)] is inserted at [dim]. *)
Definition torch_stack (ts : list tensor) (dim : Z) : result tensor :=
  match ts with
  | [] => Raise (RuntimeError "stack expects a non-empty TensorList")
  | t :: rest =>
      d ← resolve_dim dim (S (rank t));
      if decide (Forall (fun u => shape u = shape t) rest)
      then Ok (Tensor (take d (shape t) ++ length ts :: drop d (shape t))
                 (fun idx => match idx !! d with
                             | Some i => match ts !! i with
                                         | Some u => data u (delete d idx)
                                         | None => 0%R
                                         end
                             | None => 0%R
                             end))
      else Raise (RuntimeError "stack expects each tensor to be equal size")
  end.

(** [torch.linspace(start, end, steps)] *)
Definition linspace (start stop : R) (steps : nat) : tensor :=
  Tensor [steps]
    (fun idx => match idx with
                | [i] => if decide (steps = 1) then start
                         else (start + INR i * ((stop - start) / INR (steps - 1)))%R
                | _ => 0%R
                end).

(** [torch.meshgrid] on one-dimensional tensors ("ij" indexing). *)
Definition torch_meshgrid (ts : list tensor) : result (list tensor) :=
  match ts with
  | [] => Raise (RuntimeError "meshgrid expects a non-empty TensorList")
  | _ =>
      if decide (Forall (fun t => rank t = 1) ts)
      then let dims := numel ∘ shape <$> ts in
           Ok (imap (fun a t => Tensor dims
                        (fun idx => match idx !! a with
                                    | Some i => data t [i]
                                    | None => 0%R
                                    end)) ts)
      else Raise (RuntimeError "Expected scalar or 1D tensor in the tensor list")
  end.

(** [x.shape[0]] *)
Definition shape0 (t : tensor) : result nat :=
  match shape t with
  | b :: _ => Ok b
  | [] => Raise (IndexError "tuple index out of range")
  end.

(** ** Fourier position features (lines 2040-2085) *)

Definition generate_fourier_features (pos : tensor) (num_bands : nat)
    (max_resolution : list nat) (concat_pos sine_only : bool) : result tensor :=
  batch_size ← shape0 pos;
  let min_freq := 1%R in
  (* Nyquist frequency at the target resolution *)
  freq_bands ← torch_stack
    ((fun res => linspace min_freq (INR res / 2) num_bands) <$> max_resolution) 0;
  (* frequency bands for each spatial dimension: [n, d * num_bands] *)
  pos0 ← select_first pos;
  pos0' ← unsqueeze pos0 2;
  freq_bands' ← unsqueeze freq_bands 0;
  per_pos_features ← tensor_mul pos0' freq_bands';
  per_pos_features ←
    reshape per_pos_features [(-1)%Z; Z.of_nat (numel (tail (shape per_pos_features)))];
  per_pos_features ←
    (if sine_only
     then Ok (tmap (fun x => sin (PI * x)) per_pos_features)
     else torch_cat [tmap (fun x => sin (PI * x)) per_pos_features;
                     tmap (fun x => cos (PI * x)) per_pos_features] (-1));
  (* concatenate the raw input positions *)
  if concat_pos
  then e ← expand per_pos_features [Z.of_nat batch_size; (-1)%Z; (-1)%Z];
       torch_cat [pos; e] (-1)
  else Ok per_pos_features.

(** [build_linear_positions] (lines 2088-2106), output range (-1, 1). *)
Definition build_linear_positions (index_dims : list nat) : result tensor :=
  let dim_ranges := (fun n_xels_per_dim => linspace (-1) 1 n_xels_per_dim) <$> index_dims in
  array_index_grid ← torch_meshgrid dim_ranges;
  torch_stack array_index_grid (-1).

(** [_check_or_build_spatial_positions] (lines 2153-2177) *)
Definition _check_or_build_spatial_positions (pos : option tensor)
    (index_dims : list nat) (batch_size : nat) : result tensor :=
  match pos with
  | None =>
      pos ← build_linear_positions index_dims;
      pos' ← unsqueeze pos 0;
      pos ← expand pos' (Z.of_nat <$> batch_size :: shape pos);
      reshape pos [Z.of_nat batch_size; Z.of_nat (numel index_dims); (-1)%Z]
  | Some pos =>
      d ← last_dim pos;
      if decide (d = length index_dims) then Ok pos else Raise AssertionError
  end.

(** [PerceiverFourierPositionEncoding] (lines 2180-2228) *)
Record PerceiverFourierPositionEncoding : Type := {
  num_bands : nat;
  max_resolution : list nat;
  concat_pos : bool;
  sine_only : bool
}.

(** [output_size(pos_dim=None)]; [self.concat_pos * n] multiplies by the
    boolean, which is 1 inside the branch that tests it. *)
Definition fourier_output_size (self : PerceiverFourierPositionEncoding)
    (pos_dim : option nat) : nat :=
  let num_dims := length (max_resolution self) in
  let encoding_size := num_bands self * num_dims in
  let encoding_size := if negb (sine_only self) then encoding_size * 2 else encoding_size in
  if concat_pos self
  then match pos_dim with
       | None => encoding_size + Nat.b2n (concat_pos self) * num_dims
       | Some pos_dim => encoding_size + Nat.b2n (concat_pos self) * pos_dim
       end
  else encoding_size.

Definition fourier_forward (self : PerceiverFourierPositionEncoding)
    (index_dims : list nat) (batch_size : nat) (pos : option tensor) : result tensor :=
  pos ← _check_or_build_spatial_positions pos index_dims batch_size;
  generate_fourier_features pos (num_bands self) (max_resolution self)
    (concat_pos self) (sine_only self).

(** [PerceiverTrainablePositionEncoding] (lines 2126-2150); the table is the
    learned parameter of shape [prod(index_dims), num_channels]. *)
Record PerceiverTrainablePositionEncoding : Type := {
  _num_channels : nat;
  _index_dims : list nat;
  position_embeddings : tensor
}.

(** [torch.randn(index_dim, num_channels)]: the drawn values are [init]. *)
Definition PerceiverTrainablePositionEncoding_init (init : list nat -> R)
    (index_dims : list nat) (num_channels : nat) : PerceiverTrainablePositionEncoding :=
  let index_dim := numel index_dims in
  {| _num_channels := num_channels;
     _index_dims := index_dims;
     position_embeddings := Tensor [index_dim; num_channels] init |}.

Definition trainable_output_size (self : PerceiverTrainablePositionEncoding) : nat :=
  _num_channels self.

Definition trainable_forward (self : PerceiverTrainablePositionEncoding)
    (batch_size : option nat) : result tensor :=
  let position_embeddings := position_embeddings self in
  match batch_size with
  | Some batch_size => expand position_embeddings [Z.of_nat batch_size; (-1)%Z; (-1)%Z]
  | None => Ok position_embeddings
  end.

(** ** Framework modules ([torch.nn])

    Parameters of a freshly constructed module are read from [init], keyed by
    the parameter's qualified name; random draws made during a forward pass
    (dropout, Bernoulli masking) are read from [dropout_mask] and
    [bernoulli_draw]. *)

Definition sum_upto (n : nat) (f : nat -> R) : R := foldr Rplus 0%R (f <$> seq 0 n).

Definition but_last {A} (l : list A) : list A := take (length l - 1) l.

Record Linear : Type := {
  in_features : nat;
  out_features : nat;
  weight : tensor;   (* [out_features, in_features] *)
  bias : tensor      (* [out_features] *)
}.

Record LayerNorm : Type := {
  normalized_shape : nat;
  ln_weight : tensor;
  ln_bias : tensor;
  ln_eps : R
}.

Record Dropout : Type := { drop_p : R }.

(** A slot that holds either a module or [nn.Identity()]. *)
Inductive or_identity (M : Type) : Type :=
| Module_ (m : M)
| Identity.
Arguments Module_ {M} m.
Arguments Identity {M}.

Definition Linear_forward (l : Linear) (x : tensor) : result tensor :=
  d ← last_dim x;
  if decide (d = in_features l)
  then Ok (Tensor (but_last (shape x) ++ [out_features l])
             (fun idx =>
                let o := default 0 (last idx) in
                (sum_upto (in_features l)
                   (fun i => data x (but_last idx ++ [i]) * data (weight l) [o; i])
                 + data (bias l) [o])%R))
  else Raise (RuntimeError "mat1 and mat2 shapes cannot be multiplied").

Definition LayerNorm_forward (l : LayerNorm) (x : tensor) : result tensor :=
  d ← last_dim x;
  if decide (d = normalized_shape l)
  then Ok (Tensor (shape x)
             (fun idx =>
                let row i := data x (but_last idx ++ [i]) in
                let mean := (sum_upto d row / INR d)%R in
                let var := (sum_upto d (fun i => (row i - mean) * (row i - mean)) / INR d)%R in
                let o := default 0 (last idx) in
                ((data x idx - mean) / sqrt (var + ln_eps l) * data (ln_weight l) [o]
                 + data (ln_bias l) [o])%R))
  else Raise (RuntimeError "Given normalized_shape, expected input with matching trailing shape").

(** [nn.Softmax(dim=-1)] *)
Definition softmax_last (x : tensor) : result tensor :=
  d ← last_dim x;
  Ok (Tensor (shape x)
        (fun idx => (exp (data x idx)
                     / sum_upto d (fun j => exp (data x (but_last idx ++ [j]))))%R)).

(** [x.permute(0, 2, 1, 3)] *)
Definition permute_0213 (x : tensor) : result tensor :=
  match shape x with
  | [a; b; c; d] =>
      Ok (Tensor [a; c; b; d]
            (fun idx => match idx with
                        | [i; j; k; l] => data x [i; k; j; l]
                        | _ => 0%R
                        end))
  | _ => Raise (RuntimeError "number of dims don't match in permute")
  end.

(** [x.transpose(-1, -2)] on the four-axis tensors of the attention core. *)
Definition transpose_last2 (x : tensor) : result tensor :=
  match shape x with
  | [a; b; c; d] =>
      Ok (Tensor [a; b; d; c]
            (fun idx => match idx with
                        | [i; j; k; l] => data x [i; j; l; k]
                        | _ => 0%R
                        end))
  | _ => Raise (IndexError "Dimension out of range")
  end.

(** [torch.matmul] on two four-axis tensors: the two leading (batch) axes
    broadcast, the inner axes must agree. *)
Definition torch_matmul (x y : tensor) : result tensor :=
  match shape x, shape y with
  | [a; b; m; k], [a'; b'; k'; n] =>
      match broadcast_shapes [a; b] [a'; b'] with
      | Some [ba; bb] =>
          if decide (k = k')
          then Ok (Tensor [ba; bb; m; n]
                     (fun idx => match idx with
                                 | [i; j; r; c] =>
                                     sum_upto k (fun s =>
                                       data x (bindex [a; b] [i; j] ++ [r; s])
                                       * data y (bindex [a'; b'] [i; j] ++ [s; c]))%R
                                 | _ => 0%R
                                 end))
          else Raise (RuntimeError "mat1 and mat2 shapes cannot be multiplied")
      | _ => Raise (RuntimeError "The size of tensor a must match the size of tensor b")
      end
  | _, _ => Raise (RuntimeError "matmul: operands of the attention core have four axes")
  end.

Section Modules.

Variable init : string -> list nat -> R.
Variable dropout_mask : R -> list nat -> list nat -> R.

Definition nn_Linear (name : string) (in_f out_f : option nat) : result Linear :=
  match in_f, out_f with
  | Some i, Some o =>
      Ok {| in_features := i; out_features := o;
            weight := Tensor [o; i] (init (name +:+ ".weight"));
            bias := Tensor [o] (init (name +:+ ".bias")) |}
  | _, _ => Raise (TypeError "empty(): argument 'size' must be tuple of ints")
  end.

Definition nn_LayerNorm (name : string) (n : option nat) : result LayerNorm :=
  match n with
  | Some n =>
      Ok {| normalized_shape := n;
            ln_weight := Tensor [n] (init (name +:+ ".weight"));
            ln_bias := Tensor [n] (init (name +:+ ".bias"));
            ln_eps := (1 / 100000)%R |}
  | None => Raise (TypeError "'NoneType' object is not iterable")
  end.

Definition Dropout_forward (d : Dropout) (x : tensor) : tensor :=
  Tensor (shape x) (fun idx => (data x idx * dropout_mask (drop_p d) (shape x) idx)%R).

(** Python's [a % b] on the optional integers that flow into the
    constructors. *)
Definition py_mod (a : option nat) (b : nat) : result nat :=
  match a with
  | None => Raise (TypeError "unsupported operand type(s) for %: 'NoneType' and 'int'")
  | Some a => if decide (b = 0) then Raise ZeroDivisionError else Ok (a mod b)
  end.

(** Python's [a // b] *)
Definition py_floordiv (a b : nat) : result nat :=
  if decide (b = 0) then Raise ZeroDivisionError else Ok (a / b).

(** The part of [PerceiverConfig] read by the modules. *)
Record PerceiverConfig : Type := {
  num_latents : nat;
  d_latents : nat;
  d_model : nat;
  num_blocks : nat;
  num_self_attends_per_block : nat;
  num_self_attention_heads : nat;
  num_cross_attention_heads : nat;
  config_qk_channels : option nat;
  config_v_channels : option nat;
  cross_attention_shape_for_attention : string;
  self_attention_widening_factor : nat;
  cross_attention_widening_factor : nat;
  hidden_act : R -> R;
  attention_probs_dropout_prob : R;
  config_use_query_residual : bool;
  chunk_size_feed_forward : nat;
  config_output_attentions : bool;
  config_output_hidden_states : bool
}.

(** *** [PerceiverSelfAttention] (lines 183-330) *)

Record PerceiverSelfAttention : Type := {
  sa_num_heads : nat;
  sa_qk_channels : nat;
  sa_v_channels : nat;
  qk_channels_per_head : nat;
  v_channels_per_head : nat;
  layernorm1 : LayerNorm;
  layernorm2 : or_identity LayerNorm;
  query : Linear;
  key : Linear;
  value : Linear;
  dropout : Dropout
}.

Definition PerceiverSelfAttention_init (name : string) (config : PerceiverConfig)
    (is_cross_attention : bool) (qk_channels v_channels : option nat)
    (num_heads : nat) (q_dim kv_dim : option nat) : result PerceiverSelfAttention :=
  (* Q and K must have the same number of channels;
     default to preserving Q's input's shape. *)
  let qk_channels := match qk_channels with None => q_dim | Some _ => qk_channels end in
  (* V's num_channels determines the shape of the output of QKV-attention;
     default to the number of channels used in the key-query operation. *)
  let v_channels := match v_channels with None => qk_channels | Some _ => v_channels end in
  r ← py_mod qk_channels num_heads;
  if decide (r <> 0) then Raise (ValueError "qk_channels must be divisible by num_heads") else
  r ← py_mod v_channels num_heads;
  if decide (r <> 0) then Raise (ValueError "v_channels must be divisible by num_heads") else
  let qk := default 0 qk_channels in
  let v := default 0 v_channels in
  qk_per_head ← py_floordiv qk num_heads;
  v_per_head ← py_floordiv v num_heads;
  ln1 ← nn_LayerNorm (name +:+ ".layernorm1") q_dim;
  ln2 ← (if is_cross_attention
         then Module_ <$> nn_LayerNorm (name +:+ ".layernorm2") kv_dim
         else Ok Identity);
  q ← nn_Linear (name +:+ ".query") q_dim qk_channels;
  k ← nn_Linear (name +:+ ".key") kv_dim qk_channels;
  vl ← nn_Linear (name +:+ ".value") kv_dim v_channels;
  Ok {| sa_num_heads := num_heads;
        sa_qk_channels := qk;
        sa_v_channels := v;
        qk_channels_per_head := qk_per_head;
        v_channels_per_head := v_per_head;
        layernorm1 := ln1;
        layernorm2 := ln2;
        query := q; key := k; value := vl;
        dropout := {| drop_p := attention_probs_dropout_prob config |} |}.

(** [transpose_for_scores] (lines 227-230) *)
Definition transpose_for_scores (self : PerceiverSelfAttention) (x : tensor)
    (channels_per_head : nat) : result tensor :=
  let new_x_shape := but_last (shape x) ++ [sa_num_heads self; channels_per_head] in
  x ← reshape x (Z.of_nat <$> new_x_shape);
  permute_0213 x.

(** [self.layernorm2(inputs)]: [nn.Identity] passes [None] through,
    [nn.LayerNorm] rejects it. *)
Definition layernorm2_forward (m : or_identity LayerNorm) (inputs : option tensor)
    : result (option tensor) :=
  match m, inputs with
  | Identity, _ => Ok inputs
  | Module_ ln, Some x => Some <$> LayerNorm_forward ln x
  | Module_ _, None => Raise (TypeError "layer_norm(): argument 'input' must be Tensor, not NoneType")
  end.

(** [PerceiverSelfAttention.forward] (lines 232-330): the merged context and,
    when requested, the attention probabilities. *)
Definition PerceiverSelfAttention_forward (self : PerceiverSelfAttention)
    (hidden_states : tensor) (attention_mask head_mask : option tensor)
    (inputs inputs_mask : option tensor) (output_attentions : bool)
    : result (tensor * option tensor) :=
  hidden_states ← LayerNorm_forward (layernorm1 self) hidden_states;
  inputs ← layernorm2_forward (layernorm2 self) inputs;
  (* project queries, keys and values to a common feature dimension *)
  queries ← Linear_forward (query self) hidden_states;
  '(keys, values, attention_mask) ←
    match inputs with
    | Some inputs =>
        keys ← Linear_forward (key self) inputs;
        values ← Linear_forward (value self) inputs;
        Ok (keys, values, inputs_mask)
    | None =>
        keys ← Linear_forward (key self) hidden_states;
        values ← Linear_forward (value self) hidden_states;
        Ok (keys, values, attention_mask)
    end;
  (* reshape channels for multi-head attention *)
  queries ← transpose_for_scores self queries (qk_channels_per_head self);
  keys ← transpose_for_scores self keys (qk_channels_per_head self);
  values ← transpose_for_scores self values (v_channels_per_head self);
  (* raw attention scores *)
  keys_t ← transpose_last2 keys;
  attention_scores ← torch_matmul queries keys_t;
  let q_head_dim := default 0 (shape queries !! 3) in
  let v_head_dim := default 0 (shape values !! 3) in
  let hiddens := sa_num_heads self * v_head_dim in
  let attention_scores := tmap (fun s => (s / sqrt (INR q_head_dim))%R) attention_scores in
  attention_scores ←
    match attention_mask with
    | Some mask => tensor_add attention_scores mask
    | None => Ok attention_scores
    end;
  (* normalize the attention scores to probabilities *)
  attention_probs ← softmax_last attention_scores;
  let attention_probs := Dropout_forward (dropout self) attention_probs in
  (* mask heads if we want to *)
  attention_probs ←
    match head_mask with
    | Some head_mask => tensor_mul attention_probs head_mask
    | None => Ok attention_probs
    end;
  context_layer ← torch_matmul attention_probs values;
  context_layer ← permute_0213 context_layer;
  let new_context_layer_shape := take (rank context_layer - 2) (shape context_layer) ++ [hiddens] in
  context_layer ← reshape context_layer (Z.of_nat <$> new_context_layer_shape);
  Ok (context_layer, if output_attentions then Some attention_probs else None).

(** *** [PerceiverSelfOutput] (lines 333-340) *)

Record PerceiverSelfOutput : Type := { dense : Linear }.

Definition PerceiverSelfOutput_init (name : string) (config : PerceiverConfig)
    (input_channels output_channels : option nat) : result PerceiverSelfOutput :=
  d ← nn_Linear (name +:+ ".dense") input_channels output_channels;
  Ok {| dense := d |}.

Definition PerceiverSelfOutput_forward (self : PerceiverSelfOutput)
    (hidden_states : tensor) : result tensor :=
  Linear_forward (dense self) hidden_states.

(** *** [PerceiverAttention] (lines 343-444) *)

Record PerceiverAttention : Type := {
  attn_self : PerceiverSelfAttention;
  attn_output : PerceiverSelfOutput;
  use_query_residual : bool
}.

Definition PerceiverAttention_init (name : string) (config : PerceiverConfig)
    (is_cross_attention : bool) (qk_channels v_channels : option nat)
    (num_heads : nat) (q_dim kv_dim : option nat) (use_query_residual : bool)
    : result PerceiverAttention :=
  (* multi-head attention *)
  '(qk_channels, v_channels) ←
    (if is_cross_attention && bool_decide (qk_channels = None)
     then
       if decide (cross_attention_shape_for_attention config = "q")
       then Ok (q_dim, v_channels)
       else if decide (cross_attention_shape_for_attention config = "kv")
       then Ok (kv_dim, v_channels)
       else Raise (ValueError "Unknown value for cross_attention_shape_for_attention.")
     else
       let qk_channels := match qk_channels with None => q_dim | Some _ => qk_channels end in
       let v_channels := match v_channels with None => qk_channels | Some _ => v_channels end in
       Ok (qk_channels, v_channels));
  self ← PerceiverSelfAttention_init (name +:+ ".self") config is_cross_attention
           qk_channels v_channels num_heads q_dim kv_dim;
  (* dense block *)
  let output_channels := if is_cross_attention then q_dim else v_channels in
  output ← PerceiverSelfOutput_init (name +:+ ".output") config
             (Some (sa_v_channels self)) output_channels;
  Ok {| attn_self := self; attn_output := output;
        use_query_residual := use_query_residual |}.

Definition PerceiverAttention_forward (self : PerceiverAttention)
    (hidden_states : tensor) (attention_mask head_mask : option tensor)
    (inputs inputs_mask : option tensor) (output_attentions : bool)
    : result (tensor * option tensor) :=
  self_outputs ← PerceiverSelfAttention_forward (attn_self self) hidden_states
                   attention_mask head_mask inputs inputs_mask output_attentions;
  (* output projection *)
  attention_output ← PerceiverSelfOutput_forward (attn_output self) self_outputs.1;
  (* optionally include a residual to the original queries *)
  attention_output ←
    (if use_query_residual self
     then tensor_add attention_output hidden_states
     else Ok attention_output);
  Ok (attention_output, self_outputs.2).

(** *** [PerceiverMLP] (lines 447-463) *)

Record PerceiverMLP : Type := {
  dense1 : Linear;
  intermediate_act_fn : R -> R;
  dense2 : Linear
}.

Definition PerceiverMLP_init (name : string) (config : PerceiverConfig)
    (input_size : option nat) (widening_factor : nat) : result PerceiverMLP :=
  d1 ← nn_Linear (name +:+ ".dense1") input_size
         ((fun n => widening_factor * n) <$> input_size);
  d2 ← nn_Linear (name +:+ ".dense2") input_size input_size;
  Ok {| dense1 := d1; intermediate_act_fn := hidden_act config; dense2 := d2 |}.

Definition PerceiverMLP_forward (self : PerceiverMLP) (hidden_states : tensor)
    : result tensor :=
  hidden_states ← Linear_forward (dense1 self) hidden_states;
  let hidden_states := tmap (intermediate_act_fn self) hidden_states in
  Linear_forward (dense2 self) hidden_states.

(** [apply_chunking_to_forward] is imported from [modeling_utils], which is
    not among the files at hand.  It is modelled by its documented behaviour:
    a plain call when [chunk_size] is 0 (the configuration default), otherwise
    the input is cut along the sequence axis into pieces of [chunk_size], the
    function is applied to each piece and the results are concatenated. *)
Definition apply_chunking_to_forward (forward_fn : tensor -> result tensor)
    (chunk_size : nat) (input_tensor : tensor) : result tensor :=
  if decide (0 < chunk_size)
  then
    match shape input_tensor !! 1 with
    | None => Raise (IndexError "tuple index out of range")
    | Some n =>
        if decide (n mod chunk_size <> 0)
        then Raise (ValueError "The dimension to be chunked has to be a multiple of the chunk size")
        else
          let num_chunks := n / chunk_size in
          if decide (num_chunks = 0)
          then Raise (RuntimeError "chunk expects `chunks` to be greater than 0")
          else
            chunks ← mapM (fun i => slice_dim1 input_tensor (i * chunk_size) (S i * chunk_size))
                       (seq 0 num_chunks);
            output_chunks ← mapM forward_fn chunks;
            torch_cat output_chunks 1
    end
  else forward_fn input_tensor.

(** *** [PerceiverLayer] (lines 466-535) *)

Record PerceiverLayer : Type := {
  layer_chunk_size_feed_forward : nat;
  attention : PerceiverAttention;
  layernorm : LayerNorm;
  mlp : PerceiverMLP
}.

Definition PerceiverLayer_init (name : string) (config : PerceiverConfig)
    (is_cross_attention : bool) (qk_channels v_channels : option nat)
    (num_heads : nat) (q_dim kv_dim : option nat) (widening_factor : nat)
    (use_query_residual : bool) : result PerceiverLayer :=
  att ← PerceiverAttention_init (name +:+ ".attention") config is_cross_attention
          qk_channels v_channels num_heads q_dim kv_dim use_query_residual;
  ln ← nn_LayerNorm (name +:+ ".layernorm") q_dim;
  m ← PerceiverMLP_init (name +:+ ".mlp") config q_dim widening_factor;
  Ok {| layer_chunk_size_feed_forward := chunk_size_feed_forward config;
        attention := att; layernorm := ln; mlp := m |}.

Definition feed_forward_chunk (self : PerceiverLayer) (attention_output : tensor)
    : result tensor :=
  layer_output ← LayerNorm_forward (layernorm self) attention_output;
  PerceiverMLP_forward (mlp self) layer_output.

Definition PerceiverLayer_forward (self : PerceiverLayer)
    (hidden_states : tensor) (attention_mask head_mask : option tensor)
    (inputs inputs_mask : option tensor) (output_attentions : bool)
    : result (tensor * option tensor) :=
  attention_outputs ← PerceiverAttention_forward (attention self) hidden_states
                        attention_mask head_mask inputs inputs_mask output_attentions;
  let attention_output := attention_outputs.1 in
  layer_output ← apply_chunking_to_forward (feed_forward_chunk self)
                   (layer_chunk_size_feed_forward self) attention_output;
  (* residual connection *)
  layer_output ← tensor_add layer_output attention_output;
  Ok (layer_output, attention_outputs.2).

(** *** [PerceiverEncoder] (lines 538-663) *)

Record PerceiverEncoder : Type := {
  enc_config : PerceiverConfig;
  cross_attention : PerceiverLayer;
  self_attends : list PerceiverLayer
}.

Definition PerceiverEncoder_init (name : string) (config : PerceiverConfig)
    : result PerceiverEncoder :=
  (* check that we can use multihead-attention with these shapes *)
  r ← py_mod (Some (d_latents config)) (num_self_attention_heads config);
  if decide (r <> 0)
  then Raise (ValueError "num_z_channels must be divisible by num_self_attend_heads") else
  r ← py_mod (Some (d_latents config)) (num_cross_attention_heads config);
  if decide (r <> 0)
  then Raise (ValueError "num_z_channels must be divisible by num_cross_attend_heads") else
  (* the cross attention layer *)
  cross ← PerceiverLayer_init (name +:+ ".cross_attention") config true
            (config_qk_channels config) (config_v_channels config)
            (num_cross_attention_heads config)
            (Some (d_latents config)) (Some (d_model config))
            (cross_attention_widening_factor config)
            (config_use_query_residual config);
  (* a single block of self-attention layers; deeper architectures apply
     this block more than once *)
  self_attends ← mapM (fun i =>
      PerceiverLayer_init (name +:+ ".self_attends." +:+ pretty i) config false
        (config_qk_channels config) (config_v_channels config)
        (num_self_attention_heads config)
        (Some (d_latents config)) (Some (d_latents config))
        (self_attention_widening_factor config) true)
    (seq 0 (num_self_attends_per_block config));
  Ok {| enc_config := config; cross_attention := cross; self_attends := self_attends |}.

(** [BaseModelOutputWithCrossAttentions]; the tuple packaging chosen by
    [return_dict] carries the same components. *)
Record EncoderOutput : Type := {
  last_hidden_state : tensor;
  all_hidden_states : option (list tensor);
  all_self_attentions : option (list tensor);
  all_cross_attentions : option (list tensor)
}.

(** The loop state of [PerceiverEncoder.forward]. *)
Record EncState : Type := {
  st_hidden : tensor;
  st_hidden_states : option (list tensor);
  st_attentions : option (list tensor)
}.

(** [tuple + (x,)] on an optional accumulator that is a tuple exactly when
    the output flag is set. *)
Definition push (flag : bool) (acc : option (list tensor)) (x : option tensor)
    : result (option (list tensor)) :=
  if flag
  then match acc, x with
       | Some l, Some x => Ok (Some (l ++ [x]))
       | _, _ => Raise (IndexError "tuple index out of range")
       end
  else Ok acc.

(** [head_mask[i] if head_mask is not None else None] *)
Definition layer_head_mask_at (head_mask : option (list (option tensor))) (i : nat)
    : result (option tensor) :=
  match head_mask with
  | None => Ok None
  | Some l => match l !! i with
              | Some m => Ok m
              | None => Raise (IndexError "list index out of range")
              end
  end.

(** One pass of [for i, layer_module in enumerate(self.self_attends)]. *)
Fixpoint encoder_block (layers : list PerceiverLayer) (i : nat)
    (attention_mask : option tensor) (head_mask : option (list (option tensor)))
    (output_attentions output_hidden_states : bool) (st : EncState)
    : result EncState :=
  match layers with
  | [] => Ok st
  | layer_module :: layers' =>
      hs ← push output_hidden_states (st_hidden_states st) (Some (st_hidden st));
      layer_head_mask ← layer_head_mask_at head_mask i;
      layer_outputs ← PerceiverLayer_forward layer_module (st_hidden st)
                        attention_mask layer_head_mask None None output_attentions;
      atts ← push output_attentions (st_attentions st) layer_outputs.2;
      encoder_block layers' (S i) attention_mask head_mask
        output_attentions output_hidden_states
        {| st_hidden := layer_outputs.1; st_hidden_states := hs; st_attentions := atts |}
  end.

(** [for _ in range(self.config.num_blocks)] *)
Fixpoint encoder_blocks (n : nat) (layers : list PerceiverLayer)
    (attention_mask : option tensor) (head_mask : option (list (option tensor)))
    (output_attentions output_hidden_states : bool) (st : EncState)
    : result EncState :=
  match n with
  | 0 => Ok st
  | S n' =>
      st ← encoder_block layers 0 attention_mask head_mask
             output_attentions output_hidden_states st;
      hs ← push output_hidden_states (st_hidden_states st) (Some (st_hidden st));
      encoder_blocks n' layers attention_mask head_mask
        output_attentions output_hidden_states
        {| st_hidden := st_hidden st; st_hidden_states := hs;
           st_attentions := st_attentions st |}
  end.

Definition PerceiverEncoder_forward (self : PerceiverEncoder)
    (hidden_states : tensor) (attention_mask : option tensor)
    (head_mask : option (list (option tensor)))
    (inputs inputs_mask : option tensor)
    (output_attentions output_hidden_states : bool) : result EncoderOutput :=
  let all_hidden_states := if output_hidden_states then Some [] else None in
  let all_self_attentions := if output_attentions then Some [] else None in
  let all_cross_attentions := if output_attentions then Some [] else None in
  (* cross-attention between the latents (hidden_states) and inputs *)
  layer_outputs ← PerceiverLayer_forward (cross_attention self) hidden_states
                    attention_mask None inputs inputs_mask output_attentions;
  let hidden_states := layer_outputs.1 in
  all_cross_attentions ← push output_attentions all_cross_attentions layer_outputs.2;
  (* apply the block of self-attention layers more than once *)
  st ← encoder_blocks (num_blocks (enc_config self)) (self_attends self)
         attention_mask head_mask output_attentions output_hidden_states
         {| st_hidden := hidden_states; st_hidden_states := all_hidden_states;
            st_attentions := all_self_attentions |};
  Ok {| last_hidden_state := st_hidden st;
        all_hidden_states := st_hidden_states st;
        all_self_attentions := st_attentions st;
        all_cross_attentions := all_cross_attentions |}.

(** ** Decoders *)

Inductive position_encoding : Type :=
| TrainableEncoding (e : PerceiverTrainablePositionEncoding)
| FourierEncoding (e : PerceiverFourierPositionEncoding).

Record TrainableKwargs : Type := {
  tk_index_dims : list nat;
  tk_num_channels : nat
}.

(** The keyword arguments forwarded to [build_position_encoding]. *)
Record PositionEncodingKwargs : Type := {
  out_channels : option nat;
  project_pos_dim : Z;
  trainable_position_encoding_kwargs : option TrainableKwargs;
  fourier_position_encoding_kwargs : option PerceiverFourierPositionEncoding
}.

(** [build_position_encoding] (lines 1473-1505) *)
Definition build_position_encoding (name : string) (position_encoding_type : string)
    (kw : PositionEncodingKwargs)
    : result (position_encoding * or_identity Linear) :=
  output_pos_enc ←
    (if decide (position_encoding_type = "trainable")
     then match trainable_position_encoding_kwargs kw with
          | None => Raise (ValueError "Make sure to pass trainable_position_encoding_kwargs")
          | Some k =>
              Ok (TrainableEncoding
                    (PerceiverTrainablePositionEncoding_init
                       (init (name +:+ ".position_embeddings"))
                       (tk_index_dims k) (tk_num_channels k)))
          end
     else if decide (position_encoding_type = "fourier")
     then match fourier_position_encoding_kwargs kw with
          | None => Raise (ValueError "Make sure to pass fourier_position_encoding_kwargs")
          | Some k => Ok (FourierEncoding k)
          end
     else Raise (ValueError "Unknown position encoding type"));
  (* optionally, project the position encoding to a target dimension *)
  positions_projection ←
    (if (0 <? project_pos_dim kw)%Z
     then Module_ <$> nn_Linear (name +:+ ".positions_projection")
                        (out_channels kw) (Some (Z.to_nat (project_pos_dim kw)))
     else Ok Identity);
  Ok (output_pos_enc, positions_projection).

Definition projection_forward (m : or_identity Linear) (x : tensor) : result tensor :=
  match m with
  | Module_ l => Linear_forward l x
  | Identity => Ok x
  end.

(** *** [PerceiverBasicDecoder] (lines 1553-1715) *)

Record PerceiverBasicDecoder : Type := {
  output_num_channels : nat;
  output_position_encodings : option position_encoding;
  position_encoding_type : string;
  positions_projection : option (or_identity Linear);
  output_index_dims : option (list nat);
  dec_num_channels : nat;
  subsampled_index_dims : option (list nat);
  concat_preprocessed_input : bool;
  final_project : bool;
  position_encoding_only : bool;
  decoding_cross_attention : option PerceiverLayer;
  final_layer : option (or_identity Linear)
}.

Definition PerceiverBasicDecoder_init (name : string) (config : PerceiverConfig)
    (output_num_channels : nat) (position_encoding_type : string)
    (output_index_dims : option (list nat)) (num_channels : nat)
    (subsampled_index_dims : option (list nat))
    (qk_channels v_channels : option nat) (num_heads widening_factor : nat)
    (use_query_residual concat_preprocessed_input final_project
       position_encoding_only : bool)
    (position_encoding_kwargs : PositionEncodingKwargs)
    : result PerceiverBasicDecoder :=
  (* if "none", the decoder will not construct any position encodings *)
  enc ← (if decide (position_encoding_type <> "none")
         then '(e, p) ← build_position_encoding name position_encoding_type
                          position_encoding_kwargs;
              Ok (Some e, Some p)
         else Ok (None, None));
  let subsampled_index_dims :=
    match subsampled_index_dims with
    | None => output_index_dims
    | Some _ => subsampled_index_dims
    end in
  (* for multimodal autoencoding the decoder cross-attention and final layer
     are not needed *)
  layers ←
    (if negb position_encoding_only
     then l ← PerceiverLayer_init (name +:+ ".decoding_cross_attention") config true
                qk_channels v_channels num_heads
                (Some num_channels) (Some (d_latents config))
                widening_factor use_query_residual;
          f ← (if final_project
               then Module_ <$> nn_Linear (name +:+ ".final_layer")
                                  (Some num_channels) (Some output_num_channels)
               else Ok Identity);
          Ok (Some l, Some f)
     else Ok (None, None));
  Ok {| output_num_channels := output_num_channels;
        output_position_encodings := enc.1;
        position_encoding_type := position_encoding_type;
        positions_projection := enc.2;
        output_index_dims := output_index_dims;
        dec_num_channels := num_channels;
        subsampled_index_dims := subsampled_index_dims;
        concat_preprocessed_input := concat_preprocessed_input;
        final_project := final_project;
        position_encoding_only := position_encoding_only;
        decoding_cross_attention := layers.1;
        final_layer := layers.2 |}.

(** [np.unravel_index(indices, shape)]: one array of coordinates per axis;
    an index outside the array is a [ValueError]. *)
Definition np_unravel_index (indices : list nat) (dims : option (list nat))
    : result (list tensor) :=
  match dims with
  | None => Raise (TypeError "expected a sequence of integers or a single integer, got 'None'")
  | Some dims =>
      if decide (Exists (fun p => numel dims <= p) indices)
      then Raise (ValueError "index is out of bounds for array")
      else Ok (imap (fun a _ =>
                       Tensor [length indices]
                         (fun idx => match idx with
                                     | [k] => INR (default 0 (unravel dims (default 0 (indices !! k)) !! a))
                                     | _ => 0%R
                                     end))
                 dims)
  end.

(** [torch.tensor(dims)] for a tuple of integers. *)
Definition tensor_of_dims (dims : list nat) : tensor :=
  Tensor [length dims]
    (fun idx => match idx with
                | [a] => INR (default 0 (dims !! a))
                | _ => 0%R
                end).

(** A call [torch.cat(tensors, **kwargs)] with integer keyword arguments:
    [dim] is the only one that [torch.cat] accepts. *)
Definition torch_cat_kwargs (ts : list tensor) (kwargs : list (string * Z))
    : result tensor :=
  match kwargs with
  | [] => torch_cat ts 0
  | [(k, v)] =>
      if decide (k = "dim") then torch_cat ts v
      else Raise (TypeError "cat() received an invalid combination of arguments")
  | _ => Raise (TypeError "cat() received an invalid combination of arguments")
  end.

(** Calling [self.output_position_encodings] the way each branch of
    [decoder_query] does. *)
Definition call_trainable (enc : option position_encoding) (batch_size : nat)
    : result tensor :=
  match enc with
  | Some (TrainableEncoding e) => trainable_forward e (Some batch_size)
  | Some (FourierEncoding _) => Raise (TypeError "forward() missing required positional arguments")
  | None => Raise (TypeError "'NoneType' object is not callable")
  end.

Definition call_fourier (enc : option position_encoding) (index_dims : option (list nat))
    (batch_size : nat) (pos : option tensor) : result tensor :=
  match enc, index_dims with
  | Some (FourierEncoding e), Some index_dims => fourier_forward e index_dims batch_size pos
  | Some (FourierEncoding _), None => Raise (TypeError "object of type 'NoneType' has no len()")
  | Some (TrainableEncoding _), _ => Raise (TypeError "forward() got an unexpected keyword argument")
  | None, _ => Raise (TypeError "'NoneType' object is not callable")
  end.

Definition call_projection (p : option (or_identity Linear)) (x : tensor) : result tensor :=
  match p with
  | Some p => projection_forward p x
  | None => Raise (AttributeError "object has no attribute 'positions_projection'")
  end.

(** [PerceiverBasicDecoder.decoder_query] (lines 1636-1682) *)
Definition PerceiverBasicDecoder_decoder_query (self : PerceiverBasicDecoder)
    (inputs : tensor) (inputs_without_pos : option tensor)
    (subsampled_points : option (list nat)) : result tensor :=
  if decide (position_encoding_type self = "none")
  then Raise (ValueError "You cannot construct decoder queries when position_encoding_type is set to none")
  else
  pos_emb ←
    match subsampled_points with
    | Some subsampled_points =>
        (* unravel the flat indices; stack to get the [n, d] tensor of coordinates *)
        indices ← np_unravel_index subsampled_points (output_index_dims self);
        pos ← torch_stack indices 1;
        batch_size ← shape0 inputs;
        (* map these coordinates to [-1, 1] *)
        dims ← unsqueeze (tensor_of_dims (default [] (output_index_dims self))) 0;
        pos ← broadcast_op Rdiv (tmap (fun x => (2 * x)%R) pos) dims;
        let pos := tmap (fun x => (-1 + x)%R) pos in
        pos' ← unsqueeze pos 0;
        pos ← expand pos' (Z.of_nat <$> [batch_size;
                                         default 0 (shape pos !! 0);
                                         default 0 (shape pos !! 1)]);
        (* construct the position encoding *)
        pos_emb ←
          (if decide (position_encoding_type self = "trainable")
           then call_trainable (output_position_encodings self) batch_size
           else if decide (position_encoding_type self = "fourier")
           then call_fourier (output_position_encodings self) (output_index_dims self)
                  batch_size (Some pos)
           else Raise (RuntimeError "local variable 'pos_emb' referenced before assignment"));
        (* optionally project them to a target dimension *)
        pos_emb ← call_projection (positions_projection self) pos_emb;
        s0 ← shape0 pos_emb;
        sl ← last_dim pos_emb;
        reshape pos_emb [Z.of_nat s0; (-1)%Z; Z.of_nat sl]
    | None =>
        batch_size ← shape0 inputs;
        let index_dims := drop 2 (shape inputs) in
        pos_emb ←
          (if decide (position_encoding_type self = "trainable")
           then call_trainable (output_position_encodings self) batch_size
           else if decide (position_encoding_type self = "fourier")
           then call_fourier (output_position_encodings self) (Some index_dims)
                  batch_size None
           else Raise (RuntimeError "local variable 'pos_emb' referenced before assignment"));
        call_projection (positions_projection self) pos_emb
    end;
  if concat_preprocessed_input self
  then match inputs_without_pos with
       | None => Raise (ValueError "Value is required for inputs_without_pos if concat_preprocessed_input is True")
       | Some inputs_without_pos =>
           torch_cat_kwargs [inputs_without_pos; pos_emb] [("div", (-1)%Z)]
       end
  else Ok pos_emb.

(** [PerceiverDecoderOutput] *)
Record PerceiverDecoderOutput : Type := {
  dec_logits : tensor;
  dec_cross_attentions : option (list tensor)
}.

(** [PerceiverBasicDecoder.forward] (lines 1684-1715) *)
Definition PerceiverBasicDecoder_forward (self : PerceiverBasicDecoder)
    (query z : tensor) (query_mask : option tensor) (output_attentions : bool)
    : result PerceiverDecoderOutput :=
  let cross_attentions := if output_attentions then Some [] else None in
  match decoding_cross_attention self, final_layer self with
  | Some layer, Some final =>
      layer_outputs ← PerceiverLayer_forward layer query query_mask None
                        (Some z) None output_attentions;
      cross_attentions ← push output_attentions cross_attentions layer_outputs.2;
      logits ← projection_forward final layer_outputs.1;
      Ok {| dec_logits := logits; dec_cross_attentions := cross_attentions |}
  | _, _ => Raise (AttributeError "object has no attribute 'decoding_cross_attention'")
  end.

(** ** [PerceiverMultimodalPreprocessor] (lines 2673-2765) *)

Variable bernoulli_draw : list nat -> R -> list nat -> R.

(** What the composite needs of a per-modality preprocessor: its
    [num_channels] property and its call. *)
Record Preprocessor : Type := {
  pre_num_channels : result nat;
  pre_forward : tensor -> option tensor -> bool ->
                result (tensor * option (gmap string nat) * option tensor)
}.

(** [self.modalities] is a dictionary iterated in insertion order: a list of
    items with distinct names. *)
Record PerceiverMultimodalPreprocessor : Type := {
  modalities : list (string * Preprocessor);
  min_padding_size : nat;
  mask_probs : gmap string R;
  padding : gmap string tensor;
  mask : gmap string tensor
}.

(** The [num_channels] property (lines 2707-2712). *)
Definition multimodal_num_channels (modalities : list (string * Preprocessor))
    (min_padding_size : nat) : result nat :=
  sizes ← mapM (fun item => pre_num_channels item.2) modalities;
  match sizes with
  | [] => Raise (ValueError "max() arg is an empty sequence")
  | c :: cs => Ok (foldr Nat.max c cs + min_padding_size)
  end.

Definition PerceiverMultimodalPreprocessor_init (name : string)
    (modalities : list (string * Preprocessor)) (mask_probs : option (gmap string R))
    (min_padding_size : nat) : result PerceiverMultimodalPreprocessor :=
  let mask_probs := default ∅ mask_probs in
  pads ← mapM (fun item =>
      common ← multimodal_num_channels modalities min_padding_size;
      c ← pre_num_channels item.2;
      Ok (item.1, Tensor [1; common - c] (init (name +:+ ".padding." +:+ item.1))))
    modalities;
  let padding := foldl (fun acc kv => <[kv.1 := kv.2]> acc) ∅ pads in
  mask ← (if decide (mask_probs = ∅) then Ok ∅
          else common ← multimodal_num_channels modalities min_padding_size;
               Ok (map_imap (fun modality _ =>
                               Some (Tensor [1; common]
                                       (init (name +:+ ".mask." +:+ modality))))
                     mask_probs));
  Ok {| modalities := modalities; min_padding_size := min_padding_size;
        mask_probs := mask_probs; padding := padding; mask := mask |}.

(** [a, b, c = t.shape] *)
Definition unpack3 (t : tensor) : result (nat * nat * nat) :=
  match shape t with
  | [a; b; c] => Ok (a, b, c)
  | _ => Raise (ValueError "not enough values to unpack (expected 3)")
  end.

(** [t.shape[1]] *)
Definition shape1 (t : tensor) : result nat :=
  match shape t !! 1 with
  | Some n => Ok n
  | None => Raise (IndexError "tuple index out of range")
  end.

(** The accumulated dictionaries of the loop of [forward]. *)
Record MultimodalAcc : Type := {
  acc_padded : gmap string tensor;
  acc_modality_sizes : gmap string nat;
  acc_inputs_without_pos : gmap string (option tensor)
}.

(** The body of [for modality, preprocessor in self.modalities.items()]. *)
Definition multimodal_step (self : PerceiverMultimodalPreprocessor)
    (inputs : gmap string tensor) (pos : option tensor) (network_input_is_1d : bool)
    (acc : MultimodalAcc) (item : string * Preprocessor) : result MultimodalAcc :=
  let '(modality, preprocessor) := item in
  (* preprocess each modality using the respective preprocessor *)
  x ← dict_get inputs modality;
  '(output, _, without_pos) ← pre_forward preprocessor x pos network_input_is_1d;
  (* pad to the same common_channel_size *)
  '(batch_size, num_samples, num_channels) ← unpack3 output;
  pad ← dict_get (padding self) modality;
  pos_enc ← expand pad [Z.of_nat batch_size; (-1)%Z; (-1)%Z];
  common ← multimodal_num_channels (modalities self) (min_padding_size self);
  padding ← expand pos_enc [Z.of_nat batch_size; Z.of_nat num_samples;
                            (Z.of_nat common - Z.of_nat num_channels)%Z];
  output_padded ← torch_cat [output; padding] 2;
  (* mask if required *)
  output_padded ←
    match mask_probs self !! modality with
    | Some mask_prob =>
        m ← dict_get (mask self) modality;
        mask_token ← expand m [Z.of_nat batch_size; (-1)%Z; (-1)%Z];
        let mask := Tensor [batch_size; num_samples]
                      (bernoulli_draw [batch_size; num_samples] mask_prob) in
        mask ← unsqueeze mask 2;
        a ← tensor_mul (tmap (fun x => (1 - x)%R) mask) output_padded;
        b ← tensor_mul mask mask_token;
        tensor_add a b
    | None => Ok output_padded
    end;
  size ← shape1 output_padded;
  Ok {| acc_padded := <[modality := output_padded]> (acc_padded acc);
        acc_modality_sizes := <[modality := size]> (acc_modality_sizes acc);
        acc_inputs_without_pos := <[modality := without_pos]> (acc_inputs_without_pos acc) |}.

Fixpoint multimodal_loop (self : PerceiverMultimodalPreprocessor)
    (inputs : gmap string tensor) (pos : option tensor) (network_input_is_1d : bool)
    (items : list (string * Preprocessor)) (acc : MultimodalAcc) : result MultimodalAcc :=
  match items with
  | [] => Ok acc
  | item :: items' =>
      acc ← multimodal_step self inputs pos network_input_is_1d acc item;
      multimodal_loop self inputs pos network_input_is_1d items' acc
  end.

Definition PerceiverMultimodalPreprocessor_forward (self : PerceiverMultimodalPreprocessor)
    (inputs : gmap string tensor) (pos : option tensor) (network_input_is_1d : bool)
    : result (tensor * gmap string nat * gmap string (option tensor)) :=
  acc ← multimodal_loop self inputs pos network_input_is_1d (modalities self)
          {| acc_padded := ∅; acc_modality_sizes := ∅; acc_inputs_without_pos := ∅ |};
  (* apply a predictable ordering to the modalities and concatenate along
     the time dimension *)
  final_inputs ← concat_sorted (acc_padded acc);
  Ok (final_inputs, acc_modality_sizes acc, acc_inputs_without_pos acc).

(** ** The model orchestrator: [PerceiverModel] (lines 736-879)

    The forward call is a sequence of calls into its collaborators; the order
    in which they are reached is recorded as a trace of events. *)

Inductive event : Type :=
| EvPreprocess
| EvPrint (what : string)
| EvInvertAttentionMask
| EvGetHeadMask
| EvEmbeddings
| EvEncoder
| EvDecoderOutputShape
| EvDecoderQuery
| EvDecoder
| EvPostprocess.

Record prog (A : Type) : Type := Prog { trace : list event; outcome : result A }.
Arguments Prog {A} trace outcome.
Arguments trace {A} p.
Arguments outcome {A} p.

#[export] Instance prog_ret : MRet prog := fun A a => Prog [] (Ok a).
#[export] Instance prog_bind : MBind prog := fun A B f m =>
  match outcome m with
  | Ok a => Prog (trace m ++ trace (f a)) (outcome (f a))
  | Raise e => Prog (trace m) (Raise e)
  end.

(** A call into a collaborator: the event, then the call's result. *)
Definition call {A} (ev : event) (r : result A) : prog A := Prog [ev] r.
(** A step of the orchestrator itself. *)
Definition step {A} (r : result A) : prog A := Prog [] r.

Inductive model_input : Type :=
| TensorInput (t : tensor)
| DictInput (d : gmap string tensor).

Inductive without_pos : Type :=
| WithoutPosTensor (t : tensor)
| WithoutPosDict (d : gmap string (option tensor)).

Inductive subsampled : Type :=
| SubsampledList (l : list nat)
| SubsampledDict (d : gmap string (list nat)).

Inductive model_logits : Type :=
| LogitsTensor (t : tensor)
| LogitsDict (d : gmap string tensor).

(** [PerceiverAbstractDecoder] (lines 1511-1529): the operations every
    decoder provides. *)
Record Decoder : Type := {
  dec_output_shape : tensor -> result (option (gmap string nat));
  dec_decoder_query : tensor -> option (gmap string nat) -> option without_pos ->
                      option subsampled -> result tensor;
  dec_forward : tensor -> tensor -> option tensor -> bool -> result PerceiverDecoderOutput
}.

(** [PerceiverBasicDecoder.output_shape] (lines 1633-1634) evaluates
    [inputs[0]] and reports no modality sizes. *)
Definition PerceiverBasicDecoder_output_shape (self : PerceiverBasicDecoder)
    (inputs : tensor) : result (option (gmap string nat)) :=
  b ← shape0 inputs;
  if decide (b = 0)
  then Raise (IndexError "index 0 is out of bounds for dimension 0 with size 0")
  else Ok None.

Definition basic_decoder (self : PerceiverBasicDecoder) : Decoder :=
  {| dec_output_shape := PerceiverBasicDecoder_output_shape self;
     dec_decoder_query := fun inputs _ inputs_without_pos subsampled_points =>
       iwp ← match inputs_without_pos with
             | None => Ok None
             | Some (WithoutPosTensor t) => Ok (Some t)
             | Some (WithoutPosDict _) =>
                 Raise (TypeError "expected Tensor as element 0 in argument 0, but got dict")
             end;
       pts ← match subsampled_points with
             | None => Ok None
             | Some (SubsampledList l) => Ok (Some l)
             | Some (SubsampledDict _) =>
                 Raise (TypeError "only integer scalar arrays can be converted to a scalar index")
             end;
       PerceiverBasicDecoder_decoder_query self inputs iwp pts;
     dec_forward := PerceiverBasicDecoder_forward self |}.

(** [PerceiverEmbeddings] (lines 170-180) *)
Record PerceiverEmbeddings : Type := { latents : tensor }.

Definition PerceiverEmbeddings_init (name : string) (config : PerceiverConfig)
    : PerceiverEmbeddings :=
  {| latents := Tensor [num_latents config; d_latents config] (init (name +:+ ".latents")) |}.

Definition PerceiverEmbeddings_forward (self : PerceiverEmbeddings) (batch_size : nat)
    : result tensor :=
  expand (latents self) [Z.of_nat batch_size; (-1)%Z; (-1)%Z].

(** [invert_attention_mask] and [get_head_mask] are inherited from the
    pretrained-model base class, outside the files at hand. *)
Variable invert_attention_mask : tensor -> result tensor.
Variable get_head_mask : option tensor -> nat -> result (option (list (option tensor))).

Record PerceiverModel : Type := {
  model_config : PerceiverConfig;
  input_preprocessor :
    option (model_input ->
            result (tensor * option (gmap string nat) * option without_pos));
  output_postprocessor :
    option (tensor -> option (gmap string nat) -> result model_logits);
  embeddings : PerceiverEmbeddings;
  encoder : PerceiverEncoder;
  decoder : option Decoder
}.

Definition PerceiverModel_init (name : string) (config : PerceiverConfig)
    (decoder : option Decoder)
    (input_preprocessor :
       option (model_input ->
               result (tensor * option (gmap string nat) * option without_pos)))
    (output_postprocessor :
       option (tensor -> option (gmap string nat) -> result model_logits))
    : result PerceiverModel :=
  enc ← PerceiverEncoder_init (name +:+ ".encoder") config;
  Ok {| model_config := config;
        input_preprocessor := input_preprocessor;
        output_postprocessor := output_postprocessor;
        embeddings := PerceiverEmbeddings_init (name +:+ ".embeddings") config;
        encoder := enc;
        decoder := decoder |}.

(** [PerceiverModelOutput] *)
Record PerceiverModelOutput : Type := {
  out_logits : option model_logits;
  out_last_hidden_state : tensor;
  out_hidden_states : option (list tensor);
  out_attentions : option (list tensor);
  out_cross_attentions : option (list tensor)
}.

Definition shape_mismatch : pyerror :=
  ValueError "Last dimension of the inputs doesn't correspond to config.d_model. Please update config.d_model appropriately.".

(** Lines 795-801: the trailing dimension against [config.d_model]. *)
Definition check_d_model (config : PerceiverConfig) (inputs : tensor)
    : result (list nat) :=
  d ← last_dim inputs;
  if decide (d <> d_model config)
  then Raise shape_mismatch
  else Ok (shape inputs).

(** Lines 803-879: everything after the trailing-dimension check. *)
Definition forward_after_check (self : PerceiverModel) (inputs : tensor)
    (input_shape : list nat)
    (modality_sizes : option (gmap string nat)) (inputs_without_pos : option without_pos)
    (attention_mask : option tensor) (subsampled_output_points : option subsampled)
    (head_mask : option tensor) (output_attentions output_hidden_states : bool)
    : prog PerceiverModelOutput :=
  let config := model_config self in
  '(batch_size, seq_length) ←
    step (match input_shape with
          | [b; n; _] => Ok (b, n)
          | _ => Raise (ValueError "not enough values to unpack (expected 3)")
          end);
  (* if no attention mask is provided, make them all ones *)
  let attention_mask :=
    match attention_mask with
    | None => Tensor [batch_size; seq_length] (fun _ => 1%R)
    | Some m => m
    end in
  (* make the attention mask broadcastable *)
  extended_attention_mask ← call EvInvertAttentionMask (invert_attention_mask attention_mask);
  (* prepare head mask if needed *)
  head_mask ← call EvGetHeadMask
    (get_head_mask head_mask (num_blocks config * num_self_attends_per_block config));
  embedding_output ← call EvEmbeddings (PerceiverEmbeddings_forward (embeddings self) batch_size);
  encoder_outputs ← call EvEncoder
    (PerceiverEncoder_forward (encoder self) embedding_output None head_mask
       (Some inputs) (Some extended_attention_mask) output_attentions output_hidden_states);
  let sequence_output := last_hidden_state encoder_outputs in
  _ ← call (EvPrint "Shape of encoder outputs:") (Ok ());
  '(logits, cross_attentions) ←
    match decoder self with
    | Some decoder =>
        output_modality_sizes ← call EvDecoderOutputShape (dec_output_shape decoder inputs);
        let output_modality_sizes :=
          match output_modality_sizes with
          | Some s => if decide (s = ∅) then modality_sizes else Some s
          | None => modality_sizes
          end in
        decoder_query ← call EvDecoderQuery
          (dec_decoder_query decoder inputs modality_sizes inputs_without_pos
             subsampled_output_points);
        decoder_outputs ← call EvDecoder
          (dec_forward decoder decoder_query sequence_output
             (Some extended_attention_mask) output_attentions);
        (* add cross-attentions of decoder *)
        let cross_attentions :=
          match output_attentions, dec_cross_attentions decoder_outputs with
          | true, Some dc => (fun ec => ec ++ dc) <$> all_cross_attentions encoder_outputs
          | _, _ => all_cross_attentions encoder_outputs
          end in
        _ ← call (EvPrint "Shape of decoder outputs:") (Ok ());
        logits ←
          match output_postprocessor self with
          | Some post => call EvPostprocess
                           (post (dec_logits decoder_outputs) output_modality_sizes)
          | None => step (Ok (LogitsTensor (dec_logits decoder_outputs)))
          end;
        mret (Some logits, cross_attentions)
    | None => mret (None, all_cross_attentions encoder_outputs)
    end;
  mret {| out_logits := logits;
          out_last_hidden_state := sequence_output;
          out_hidden_states := all_hidden_states encoder_outputs;
          out_attentions := all_self_attentions encoder_outputs;
          out_cross_attentions := cross_attentions |}.

(** [PerceiverModel.forward] (lines 770-879) *)
Definition PerceiverModel_forward (self : PerceiverModel) (inputs : model_input)
    (attention_mask : option tensor) (subsampled_output_points : option subsampled)
    (head_mask : option tensor) (output_attentions output_hidden_states : option bool)
    : prog PerceiverModelOutput :=
  let config := model_config self in
  let output_attentions := default (config_output_attentions config) output_attentions in
  let output_hidden_states := default (config_output_hidden_states config) output_hidden_states in
  '(inputs, modality_sizes, inputs_without_pos) ←
    match input_preprocessor self with
    | Some pre => call EvPreprocess (pre inputs)
    | None =>
        match inputs with
        | TensorInput t => step (Ok (t, None, None))
        | DictInput _ => step (Raise (AttributeError "'dict' object has no attribute 'shape'"))
        end
    end;
  _ ← call (EvPrint "Shape of inputs before going into perceiver:") (Ok ());
  input_shape ← step (check_d_model config inputs);
  forward_after_check self inputs input_shape modality_sizes inputs_without_pos
    attention_mask subsampled_output_points head_mask
    output_attentions output_hidden_states.

End Modules.

Arguments Prog {A} trace outcome.
Arguments trace {A} p.
Arguments outcome {A} p.

(** ** Auxiliary definitions used to state the properties *)

Definition size_of (sizes : gmap string nat) (k : string) : nat := default 0 (sizes !! k).

Definition sizes_agree (acc : MultimodalAcc) : Prop :=
  forall k, acc_modality_sizes acc !! k
            = acc_padded acc !! k ≫= fun t => shape t !! 1.

(** The frequency of band [k] on axis [a]. *)
Definition freq_band (max_resolution : list nat) (num_bands a k : nat) : R :=
  data (linspace 1 (INR (default 0 (max_resolution !! a)) / 2) num_bands) [k].

(** Channel [c] of the sinusoidal features of one point with coordinates [x]. *)
Definition fourier_channel (max_resolution : list nat) (num_bands : nat)
    (sine_only : bool) (x : nat -> R) (c : nat) : R :=
  let width := length max_resolution * num_bands in
  let arg c := Rmult (x (c / num_bands))
                 (freq_band max_resolution num_bands (c / num_bands) (c mod num_bands)) in
  if sine_only then sin (Rmult PI (arg c))
  else if c <? width then sin (Rmult PI (arg c)) else cos (Rmult PI (arg (c - width))).

Definition fourier_width (max_resolution : list nat) (num_bands : nat) (sine_only : bool) : nat :=
  if sine_only then length max_resolution * num_bands
  else length max_resolution * num_bands + length max_resolution * num_bands.

Definition point_of (pos : tensor) (i : nat) : nat -> R := fun a => data pos [0; i; a].

(** The channel counts after the defaults of lines 200-205. *)
Definition resolved_qk_channels (qk_channels q_dim : option nat) : option nat :=
  match qk_channels with None => q_dim | Some _ => qk_channels end.
Definition resolved_v_channels (qk_channels v_channels q_dim : option nat) : option nat :=
  match v_channels with None => resolved_qk_channels qk_channels q_dim | Some _ => v_channels end.

(** One pass over the stack of self-attention layers, on the hidden state
    alone. *)
Fixpoint self_attention_stack (dropout_mask : R -> list nat -> list nat -> R)
    (layers : list PerceiverLayer) (i : nat)
    (attention_mask : option tensor) (head_mask : option (list (option tensor)))
    (output_attentions : bool) (hidden_states : tensor) : result tensor :=
  match layers with
  | [] => Ok hidden_states
  | layer_module :: layers' =>
      layer_head_mask ← layer_head_mask_at head_mask i;
      layer_outputs ← PerceiverLayer_forward dropout_mask layer_module hidden_states
                        attention_mask layer_head_mask None None output_attentions;
      self_attention_stack dropout_mask layers' (S i) attention_mask head_mask
        output_attentions layer_outputs.1
  end.

(** The encoder as the specification words it: one cross-attention layer from
    the latents into the inputs, then the one stack of self-attention layers
    applied [num_blocks] times. *)
Definition encoder_spec (dropout_mask : R -> list nat -> list nat -> R)
    (self : PerceiverEncoder) (hidden_states : tensor)
    (attention_mask : option tensor) (head_mask : option (list (option tensor)))
    (inputs inputs_mask : option tensor) (output_attentions : bool) : result tensor :=
  layer_outputs ← PerceiverLayer_forward dropout_mask (cross_attention self) hidden_states
                    attention_mask None inputs inputs_mask output_attentions;
  Nat.iter (num_blocks (enc_config self))
    (fun r => r ≫= self_attention_stack dropout_mask (self_attends self) 0
                     attention_mask head_mask output_attentions)
    (Ok layer_outputs.1).

Definition flags_ok (output_attentions output_hidden_states : bool) (st : EncState) : Prop :=
  (output_hidden_states = true -> is_Some (st_hidden_states st))
  /\ (output_attentions = true -> is_Some (st_attentions st)).




(** What preprocessing hands to the rest of the forward call: the result of
    the configured preprocessor, or the raw tensor when there is none. *)
Definition preprocessed (self : PerceiverModel) (inputs : model_input)
    (x : tensor) (modality_sizes : option (gmap string nat))
    (inputs_without_pos : option without_pos) : Prop :=
  match input_preprocessor self with
  | Some pre => pre inputs = Ok (x, modality_sizes, inputs_without_pos)
  | None => inputs = TensorInput x /\ modality_sizes = None /\ inputs_without_pos = None
  end.

Definition preprocess_events (self : PerceiverModel) : list event :=
  match input_preprocessor self with
  | Some _ => [EvPreprocess]
  | None => []
  end.

(** ** Concrete instances on which the properties are exercised *)

Definition init0 : string -> list nat -> R := fun _ _ => 0%R.

Definition keep_all : R -> list nat -> list nat -> R := fun _ _ _ => 1%R.

Definition zeros (sh : list nat) : tensor := Tensor sh (fun _ => 0%R).

Definition config0 : PerceiverConfig :=
  {| num_latents := 2; d_latents := 4; d_model := 4;
     num_blocks := 2; num_self_attends_per_block := 1;
     num_self_attention_heads := 2; num_cross_attention_heads := 2;
     config_qk_channels := None; config_v_channels := None;
     cross_attention_shape_for_attention := "kv";
     self_attention_widening_factor := 1;
     cross_attention_widening_factor := 1;
     hidden_act := fun x => x;
     attention_probs_dropout_prob := 0%R;
     config_use_query_residual := true;
     chunk_size_feed_forward := 0;
     config_output_attentions := false;
     config_output_hidden_states := false |}.

Definition fourier0 : PerceiverFourierPositionEncoding :=
  {| num_bands := 2; max_resolution := [4; 4]; concat_pos := true; sine_only := false |}.

Definition sizes0 : gmap string nat := {[ "audio" := 1; "image" := 2 ]}.

Definition pre_const (t : tensor) (c : nat) : Preprocessor :=
  {| pre_num_channels := Ok c; pre_forward := fun _ _ _ => Ok (t, None, None) |}.

Definition modalities0 : list (string * Preprocessor) :=
  [("audio", pre_const (zeros [1; 1; 2]) 2); ("image", pre_const (zeros [1; 2; 3]) 3)].

Definition inputs0 : gmap string tensor :=
  {[ "audio" := zeros [1; 2]; "image" := zeros [1; 3; 2; 2] ]}.

Definition never_masked : list nat -> R -> list nat -> R := fun _ _ _ => 0%R.

Definition multimodal0 : PerceiverMultimodalPreprocessor :=
  {| modalities := modalities0;
     min_padding_size := 2;
     mask_probs := {[ "image" := 0%R ]};
     padding := {[ "audio" := Tensor [1; 3] (init0 "input_preprocessor.padding.audio");
                   "image" := Tensor [1; 2] (init0 "input_preprocessor.padding.image") ]};
     mask := {[ "image" := Tensor [1; 5] (init0 "input_preprocessor.mask.image") ]} |}.


Definition trainable_kwargs0 : PositionEncodingKwargs :=
  {| out_channels := None; project_pos_dim := (-1)%Z;
     trainable_position_encoding_kwargs :=
       Some {| tk_index_dims := [4]; tk_num_channels := 3 |};
     fourier_position_encoding_kwargs := None |}.

Definition fourier1 : PerceiverFourierPositionEncoding :=
  {| num_bands := 1; max_resolution := [2]; concat_pos := true; sine_only := false |}.

Definition fourier_kwargs0 : PositionEncodingKwargs :=
  {| out_channels := None; project_pos_dim := (-1)%Z;
     trainable_position_encoding_kwargs := None;
     fourier_position_encoding_kwargs := Some fourier1 |}.

(** [PerceiverBasicDecoder(config, output_num_channels=3,
    position_encoding_type=..., output_index_dims=dims, num_channels=3,
    concat_preprocessed_input=..., position_encoding_only=True, ...)] *)
Definition basic_decoder0 (position_encoding_type : string) (dims : list nat)
    (concat_preprocessed_input : bool) (kw : PositionEncodingKwargs)
    : result PerceiverBasicDecoder :=
  PerceiverBasicDecoder_init init0 "decoder" config0 3 position_encoding_type
    (Some dims) 3 None None None 1 1 false concat_preprocessed_input true true kw.

Definition identity_mask : tensor -> result tensor := fun t => Ok t.

Definition no_head_mask : option tensor -> nat -> result (option (list (option tensor))) :=
  fun _ n => Ok (Some (replicate n None)).

(** * Properties *)

Lemma bind_Ok {A B} (m : result A) (f : A -> result B) (b : B) :
  m ≫= f = Ok b -> exists a, m = Ok a /\ f a = Ok b.
Proof. destruct m as [a|e]; simpl; [eauto | discriminate]. Qed.

Ltac inv_bind H :=
  let a := fresh "a" in
  let Ha := fresh "Ha" in
  apply bind_Ok in H; destruct H as (a & Ha & H).

(* from P2 *)
(** * Restructuring *)

Lemma sorted_keys_perm {V} (d : gmap string V) : sorted_keys d ≡ₚ elements (dom d).
Proof. apply merge_sort_Permutation. Qed.

Lemma sorted_keys_NoDup {V} (d : gmap string V) : NoDup (sorted_keys d).
Proof. rewrite sorted_keys_perm. apply NoDup_elements. Qed.

Lemma elem_of_sorted_keys {V} (d : gmap string V) k :
  k ∈ sorted_keys d <-> is_Some (d !! k).
Proof. rewrite sorted_keys_perm, elem_of_elements. apply elem_of_dom. Qed.

Lemma sorted_keys_dom {V W} (d : gmap string V) (e : gmap string W) :
  dom d = dom e -> sorted_keys d = sorted_keys e.
Proof. unfold sorted_keys. by intros ->. Qed.

Lemma sorted_keys_nil {V} (d : gmap string V) : sorted_keys d = [] -> d = ∅.
Proof.
  intros H. apply map_empty. intros k.
  destruct (d !! k) eqn:E; [|done].
  assert (k ∈ sorted_keys d) as Hin by (apply elem_of_sorted_keys; eauto).
  rewrite H in Hin. by apply elem_of_nil in Hin.
Qed.

Lemma total_size_sorted (sizes : gmap string nat) :
  total_size sizes = sum_list (size_of sizes <$> sorted_keys sizes).
Proof.
  unfold total_size. rewrite map_fold_foldr.
  assert (Hp : sorted_keys sizes ≡ₚ (map_to_list sizes).*1).
  { apply NoDup_Permutation.
    - apply sorted_keys_NoDup.
    - apply NoDup_fst_map_to_list.
    - intros k. rewrite elem_of_sorted_keys, list_elem_of_fmap.
      split.
      + intros [v Hv]. exists (k, v). split; [done|]. by apply elem_of_map_to_list.
      + intros [[k' v] [-> Hin]]. apply elem_of_map_to_list in Hin. eauto. }
  rewrite Hp.
  assert (Hl : forall l : list (string * nat),
            (forall k v, (k, v) ∈ l -> sizes !! k = Some v) ->
            foldr (uncurry (fun (_ : string) size acc => size + acc)) 0 l
            = sum_list (size_of sizes <$> l.*1)).
  { induction l as [|[k v] l IH]; intros Hl; [done|].
    assert (Hk : size_of sizes k = v).
    { unfold size_of. rewrite (Hl k v); [done|]. left. }
    simpl. rewrite Hk, IH; [done|].
    intros k' v' Hin. apply Hl. by right. }
  apply Hl. intros k v Hin. by apply elem_of_map_to_list.
Qed.

Lemma slice_dim1_3d t B N C lo sz :
  shape t = [B; N; C] -> lo + sz <= N ->
  exists p, slice_dim1 t lo (lo + sz) = Ok p /\ shape p = [B; sz; C]
            /\ forall i j k, data p [i; j; k] = data t [i; lo + j; k].
Proof.
  intros Hs Hle. unfold slice_dim1. rewrite Hs. eexists. split; [reflexivity|].
  simpl. split.
  - by replace ((lo + sz) `min` N - lo `min` N) with sz by lia.
  - intros i j k. by replace (lo `min` N) with lo by lia.
Qed.

Lemma cat2_dim1 a b B n1 n2 C :
  shape a = [B; n1; C] -> shape b = [B; n2; C] ->
  exists r, cat2 1 a b = Ok r /\ shape r = [B; n1 + n2; C]
            /\ forall i j k, data r [i; j; k]
                 = if j <? n1 then data a [i; j; k] else data b [i; j - n1; k].
Proof.
  intros Ha Hb. unfold cat2. rewrite Ha, Hb. simpl.
  destruct (decide _) as [_|Hn]; [|exfalso; apply Hn; done].
  eexists. split; [reflexivity|]. simpl. split; [done|]. done.
Qed.

Lemma restructure_loop_other sizes t keys :
  forall index acc out k,
    restructure_loop sizes t keys index acc = Ok out ->
    k ∉ keys -> out !! k = acc !! k.
Proof.
  induction keys as [|k0 keys IH]; intros index acc out k H Hk; simpl in H.
  - by inversion H.
  - inv_bind H. inv_bind H.
    apply not_elem_of_cons in Hk as [Hne Hk].
    rewrite (IH _ _ _ _ H Hk). by rewrite lookup_insert_ne.
Qed.

Lemma restructure_loop_dom sizes t keys :
  forall index acc out,
    restructure_loop sizes t keys index acc = Ok out ->
    dom out = dom acc ∪ list_to_set keys.
Proof.
  induction keys as [|k0 keys IH]; intros index acc out H; simpl in H.
  - inversion H; subst. by rewrite list_to_set_nil, union_empty_r_L.
  - inv_bind H. inv_bind H. rewrite (IH _ _ _ H), dom_insert_L, list_to_set_cons.
    by rewrite (union_comm_L {[k0]}), union_assoc_L.
Qed.

Lemma restructure_loop_Ok sizes t B N C keys :
  shape t = [B; N; C] ->
  (forall k, k ∈ keys -> is_Some (sizes !! k)) ->
  forall index acc, is_ok (restructure_loop sizes t keys index acc) = true.
Proof.
  intros Hs. induction keys as [|k0 keys IH]; intros Hk index acc; [done|].
  simpl. destruct (Hk k0) as [v Hv]; [left|].
  unfold dict_get. rewrite Hv. simpl.
  unfold slice_dim1. rewrite Hs. simpl. apply IH.
  intros k Hin. apply Hk. by right.
Qed.

(** Concatenating the pieces cut by the loop, after any tensor [a] of the
    same batch and channel sizes, appends the span of [t] that the loop
    walked over. *)
Lemma restructure_loop_cat sizes t B N C keys :
  shape t = [B; N; C] -> NoDup keys ->
  forall index acc out,
    restructure_loop sizes t keys index acc = Ok out ->
    index + sum_list (size_of sizes <$> keys) <= N ->
    exists pieces,
      mapM (dict_get out) keys = Ok pieces
      /\ forall a n, shape a = [B; n; C] ->
           exists r, cat_from 1 a pieces = Ok r
             /\ shape r = [B; n + sum_list (size_of sizes <$> keys); C]
             /\ forall i j k, j < n + sum_list (size_of sizes <$> keys) ->
                  data r [i; j; k]
                  = if j <? n then data a [i; j; k] else data t [i; index + (j - n); k].
Proof.
  intros Hs. induction keys as [|k0 keys IH]; intros Hnd index acc out H Hle.
  - exists []. split; [done|]. intros a n Ha. exists a. simpl.
    split; [done|]. split; [by rewrite Nat.add_0_r|].
    intros i j k Hj. destruct (Nat.ltb_spec j n); [done|]. lia.
  - simpl in H. inv_bind H. rename a into size. inv_bind H. rename a into inp.
    apply NoDup_cons in Hnd as [Hk0 Hnd].
    assert (Hsz : size_of sizes k0 = size).
    { unfold size_of. unfold dict_get in Ha. destruct (sizes !! k0); by inversion Ha. }
    rewrite fmap_cons in Hle. simpl in Hle. rewrite Hsz in Hle.
    destruct (slice_dim1_3d t B N C index size Hs) as (p & Hp & Hps & Hpd); [lia|].
    rewrite Hp in Ha0. inversion Ha0; subst inp. clear Ha0.
    destruct (IH Hnd _ _ _ H) as (pieces & Hm & Hcat); [lia|].
    exists (p :: pieces). split.
    + assert (Hk : dict_get out k0 = Ok p).
      { unfold dict_get. rewrite (restructure_loop_other _ _ _ _ _ _ _ H Hk0).
        by rewrite lookup_insert_eq. }
      simpl. rewrite Hk. simpl. by rewrite Hm.
    + intros a n Hash.
      destruct (cat2_dim1 a p B n size C Hash Hps) as (a' & Hc & Hs' & Hd').
      destruct (Hcat a' (n + size) Hs') as (r & Hr & Hrs & Hrd).
      exists r. simpl. rewrite Hc. simpl. split; [done|].
      rewrite Hsz.
      change (list_fmap string nat (size_of sizes) keys) with (size_of sizes <$> keys).
      split.
      * rewrite Hrs. do 2 f_equal. lia.
      * intros i j k Hj. rewrite Hrd by lia. rewrite Hd', Hpd.
        destruct (Nat.ltb_spec j (n + size)); destruct (Nat.ltb_spec j n);
          try (exfalso; lia); try done.
        by replace (index + size + (j - (n + size))) with (index + (j - n)) by lia.
Qed.

Lemma resolve_dim_1 rk d : resolve_dim 1 rk = Ok d -> d = 1 /\ 1 < rk.
Proof.
  unfold resolve_dim. intros H.
  destruct ((- Z.of_nat rk <=? 1)%Z && (1 <? Z.of_nat rk)%Z) eqn:E; [|discriminate].
  apply andb_true_iff in E as [_ E]. apply Z.ltb_lt in E.
  inversion H. split; [|lia].
  rewrite Z.mod_small by lia. done.
Qed.

Lemma resolve_dim_1_Ok rk : 1 < rk -> resolve_dim 1 rk = Ok 1.
Proof.
  intros H. unfold resolve_dim.
  replace ((- Z.of_nat rk <=? 1)%Z && (1 <? Z.of_nat rk)%Z) with true.
  - rewrite Z.mod_small by lia. done.
  - symmetry. apply andb_true_iff. split; [apply Z.leb_le | apply Z.ltb_lt]; lia.
Qed.

Lemma restructure_roundtrip (sizes : gmap string nat) (t : tensor) (B N C : nat) :
  sizes <> ∅ -> shape t = [B; N; C] -> total_size sizes = N ->
  exists parts r,
    restructure sizes t = Ok parts /\ concat_sorted parts = Ok r /\ tensor_eq r t.
Proof.
  intros Hne Hs Htot.
  rewrite total_size_sorted in Htot.
  unfold restructure.
  pose proof (sorted_keys_NoDup sizes) as Hnd.
  assert (Hin : forall k, k ∈ sorted_keys sizes -> is_Some (sizes !! k))
    by (intros k; apply elem_of_sorted_keys).
  pose proof (restructure_loop_Ok sizes t B N C (sorted_keys sizes) Hs Hin 0 ∅) as Hok.
  destruct (restructure_loop sizes t (sorted_keys sizes) 0 ∅) as [parts|e] eqn:Hloop;
    [|discriminate].
  exists parts.
  assert (Hdom : dom parts = dom sizes).
  { rewrite (restructure_loop_dom _ _ _ _ _ _ Hloop), dom_empty_L, union_empty_l_L.
    apply set_eq. intros k.
    rewrite elem_of_list_to_set, elem_of_sorted_keys. symmetry. apply elem_of_dom. }
  unfold concat_sorted. rewrite (sorted_keys_dom parts sizes Hdom).
  destruct (sorted_keys sizes) as [|k0 keys] eqn:Hkeys.
  { exfalso. apply Hne. by apply sorted_keys_nil. }
  simpl in Hloop. inv_bind Hloop. rename a into size. inv_bind Hloop. rename a into inp.
  apply NoDup_cons in Hnd as [Hk0 Hnd].
  assert (Hsz : size_of sizes k0 = size).
  { unfold size_of. unfold dict_get in Ha. destruct (sizes !! k0); by inversion Ha. }
  rewrite fmap_cons in Htot. simpl in Htot. rewrite Hsz in Htot.
  change (list_fmap string nat (size_of sizes) keys) with (size_of sizes <$> keys) in Htot.
  destruct (slice_dim1_3d t B N C 0 size Hs) as (p & Hp & Hps & Hpd); [lia|].
  simpl in Hp. rewrite Hp in Ha0. inversion Ha0; subst inp. clear Ha0.
  destruct (restructure_loop_cat sizes t B N C keys Hs Hnd _ _ _ Hloop)
    as (pieces & Hm & Hcat); [lia|].
  destruct (Hcat p size Hps) as (r & Hr & Hrs & Hrd).
  exists r. split; [done|]. split.
  - assert (Hk : dict_get parts k0 = Ok p).
    { unfold dict_get. rewrite (restructure_loop_other _ _ _ _ _ _ _ Hloop Hk0).
      by rewrite lookup_insert_eq. }
    simpl. rewrite Hk. simpl. rewrite Hm. simpl.
    unfold rank. rewrite Hps. change (length [B; size; C]) with 3.
    rewrite (resolve_dim_1_Ok 3) by lia. done.
  - split; [by rewrite Hrs, Hs, Htot|].
    intros idx Hidx. rewrite Hrs in Hidx. unfold in_range in Hidx.
    apply Forall2_cons_inv_r in Hidx as (i & idx1 & Hi & Hidx & ->).
    apply Forall2_cons_inv_r in Hidx as (j & idx2 & Hj & Hidx & ->).
    apply Forall2_cons_inv_r in Hidx as (k & idx3 & Hk & Hidx & ->).
    apply Forall2_nil_inv_r in Hidx as ->.
    rewrite Hrd by done.
    destruct (Nat.ltb_spec j size).
    + by rewrite Hpd.
    + by replace (size + (j - size)) with j by lia.
Qed.

(** * Sizes recorded by the multimodal preprocessor *)

Lemma cat2_dim1_size a b r :
  cat2 1 a b = Ok r ->
  exists na nb, shape a !! 1 = Some na /\ shape b !! 1 = Some nb
                /\ shape r !! 1 = Some (na + nb).
Proof.
  unfold cat2. intros H.
  destruct (shape a !! 1) as [na|] eqn:Ea; [|discriminate].
  destruct (shape b !! 1) as [nb|] eqn:Eb; [|discriminate].
  destruct (decide _); [|discriminate].
  inversion H; subst r. simpl. exists na, nb. split; [done|]. split; [done|].
  apply list_lookup_insert_eq. by apply lookup_lt_Some in Ea.
Qed.

Lemma cat_from_dim1_size ts :
  forall a r n, cat_from 1 a ts = Ok r -> shape a !! 1 = Some n ->
    exists ns, Forall2 (fun t m => shape t !! 1 = Some m) ts ns
               /\ shape r !! 1 = Some (n + sum_list ns).
Proof.
  induction ts as [|t ts IH]; intros a r n H Ha; simpl in H.
  - inversion H; subst r. exists []. split; [constructor|]. by rewrite Nat.add_0_r.
  - inv_bind H. rename a0 into a'.
    destruct (cat2_dim1_size _ _ _ Ha0) as (na & nb & Hna & Hnb & Hr).
    rewrite Ha in Hna. inversion Hna; subst na.
    destruct (IH _ _ _ H Hr) as (ns & Hns & Hrs).
    exists (nb :: ns). split; [by constructor|].
    rewrite Hrs. simpl. f_equal. lia.
Qed.

Lemma torch_cat_dim1_size ts r :
  torch_cat ts 1 = Ok r ->
  exists ns, Forall2 (fun t m => shape t !! 1 = Some m) ts ns
             /\ shape r !! 1 = Some (sum_list ns).
Proof.
  destruct ts as [|t ts]; [discriminate|]. simpl. intros H.
  inv_bind H. apply resolve_dim_1 in Ha as [-> Hrk].
  unfold rank in Hrk. apply lookup_lt_is_Some_2 in Hrk as [n Hn].
  destruct (cat_from_dim1_size _ _ _ _ H Hn) as (ns & Hns & Hr).
  exists (n :: ns). split; [by constructor|done].
Qed.

Lemma multimodal_step_agree draw self inputs pos flag acc item acc' :
  multimodal_step draw self inputs pos flag acc item = Ok acc' ->
  sizes_agree acc -> sizes_agree acc'.
Proof.
  intros H Hacc. unfold multimodal_step in H. destruct item as [modality pre].
  inv_bind H. inv_bind H. destruct a0 as [[output ms] wp].
  inv_bind H. destruct a0 as [[b n] c].
  repeat inv_bind H.
  match goal with Hs : shape1 ?t = Ok ?s |- _ =>
    unfold shape1 in Hs; destruct (shape t !! 1) as [n1|] eqn:E1; [|discriminate];
    inversion Hs; subst end.
  inversion H; subst acc'. intros k. simpl.
  destruct (decide (modality = k)) as [->|Hne].
  - rewrite !lookup_insert_eq. simpl. by rewrite E1.
  - rewrite !lookup_insert_ne by done. apply Hacc.
Qed.

Lemma multimodal_loop_agree draw self inputs pos flag items :
  forall acc acc',
    multimodal_loop draw self inputs pos flag items acc = Ok acc' ->
    sizes_agree acc -> sizes_agree acc'.
Proof.
  induction items as [|item items IH]; intros acc acc' H Hacc; simpl in H.
  - by inversion H; subst.
  - inv_bind H. eapply IH; [exact H|]. eapply multimodal_step_agree; eauto.
Qed.

Lemma sizes_agree_dom acc :
  sizes_agree acc -> is_ok (concat_sorted (acc_padded acc)) = true ->
  dom (acc_padded acc) = dom (acc_modality_sizes acc).
Proof.
  intros Hag Hok. apply set_eq. intros k. rewrite !elem_of_dom, Hag.
  split.
  - intros [t Ht]. rewrite Ht. simpl.
    unfold concat_sorted in Hok.
    destruct (mapM _ _) as [ts|] eqn:Hm; [|discriminate]. simpl in Hok.
    destruct (torch_cat ts 1) as [r|] eqn:Hc; [|discriminate].
    destruct (torch_cat_dim1_size _ _ Hc) as (ns & Hns & _).
    assert (Hin : k ∈ sorted_keys (acc_padded acc)) by (apply elem_of_sorted_keys; eauto).
    clear Hc Hok. revert ts ns Hm Hns Hin.
    induction (sorted_keys (acc_padded acc)) as [|k0 keys IH]; intros ts ns Hm Hns Hin.
    + by apply elem_of_nil in Hin.
    + simpl in Hm. apply bind_Ok in Hm as (t0 & Hget & Hm).
      apply bind_Ok in Hm as (ts0 & Hrest & Hm). inversion Hm; subst ts.
      apply Forall2_cons_inv_l in Hns as (m & ns' & Hm0 & Hns & ->).
      apply elem_of_cons in Hin as [->|Hin].
      * unfold dict_get in Hget. rewrite Ht in Hget. inversion Hget; subst. eauto.
      * eapply IH; eauto.
  - intros [n Hn]. destruct (acc_padded acc !! k); [eauto|discriminate].
Qed.

Lemma multimodal_sizes_sum draw self inputs pos flag final sizes iwp :
  PerceiverMultimodalPreprocessor_forward draw self inputs pos flag
    = Ok (final, sizes, iwp) ->
  shape final !! 1 = Some (total_size sizes).
Proof.
  unfold PerceiverMultimodalPreprocessor_forward. intros H.
  inv_bind H. rename a into acc. inv_bind H. inversion H; subst. clear H.
  assert (Hag : sizes_agree acc).
  { eapply multimodal_loop_agree; [exact Ha|]. intros k. simpl. by rewrite !lookup_empty. }
  assert (Hdom : dom (acc_padded acc) = dom (acc_modality_sizes acc)).
  { apply sizes_agree_dom; [done|]. by rewrite Ha0. }
  rewrite total_size_sorted, <- (sorted_keys_dom _ _ Hdom).
  unfold concat_sorted in Ha0. inv_bind Ha0. rename a into ts.
  destruct (torch_cat_dim1_size _ _ Ha0) as (ns & Hns & Hr).
  rewrite Hr. f_equal. clear Ha0 Hr.
  revert ts ns Ha1 Hns.
  induction (sorted_keys (acc_padded acc)) as [|k0 keys IH]; intros ts ns Hm Hns.
  - inversion Hm; subst ts. by apply Forall2_nil_inv_l in Hns as ->.
  - simpl in Hm. apply bind_Ok in Hm as (t0 & Hget & Hm).
    apply bind_Ok in Hm as (ts0 & Hrest & Hm). inversion Hm; subst ts.
    apply Forall2_cons_inv_l in Hns as (m & ns' & Hm0 & Hns & ->).
    rewrite fmap_cons. simpl. rewrite (IH _ _ Hrest Hns). f_equal.
    unfold size_of. rewrite Hag. unfold dict_get in Hget.
    destruct (acc_padded acc !! k0) as [t|]; [|discriminate].
    inversion Hget; subst. simpl. by rewrite Hm0.
Qed.

Lemma multimodal_sizes_nonempty draw self inputs pos flag final sizes iwp :
  PerceiverMultimodalPreprocessor_forward draw self inputs pos flag
    = Ok (final, sizes, iwp) ->
  sizes <> ∅.
Proof.
  unfold PerceiverMultimodalPreprocessor_forward. intros H.
  apply bind_Ok in H as (acc & Hloop & H). apply bind_Ok in H as (t & Hcat & H).
  inversion H; subst. clear H. intros Hempty.
  assert (Hag : sizes_agree acc).
  { eapply multimodal_loop_agree; [exact Hloop|]. intros k. simpl. by rewrite !lookup_empty. }
  assert (Hdom : dom (acc_padded acc) = dom (acc_modality_sizes acc)).
  { apply sizes_agree_dom; [done|]. by rewrite Hcat. }
  unfold concat_sorted in Hcat. rewrite (sorted_keys_dom _ _ Hdom) in Hcat.
  unfold sorted_keys in Hcat. rewrite Hempty, dom_empty_L, elements_empty in Hcat.
  discriminate.
Qed.

#[local] Instance str_le_total : Total str_le.
Proof. intros a b. apply String.leb_total. Qed.

(** [sorted_keys] lists the names of the dictionary in alphabetical order. *)
Lemma sorted_keys_Sorted {V} (d : gmap string V) : Sorted str_le (sorted_keys d).
Proof. apply Sorted_merge_sort. apply _. Qed.

(* from P3 *)
(** * Shapes and values of the framework operations *)

Lemma resolve_dim_last rk : 0 < rk -> resolve_dim (-1) rk = Ok (rk - 1).
Proof.
  intros H. unfold resolve_dim.
  replace ((- Z.of_nat rk <=? -1)%Z && (-1 <? Z.of_nat rk)%Z) with true.
  - f_equal. 
    replace (-1 mod Z.of_nat rk)%Z with (Z.of_nat rk - 1)%Z; [lia|].
    apply Z.mod_unique with (q := (-1)%Z); lia.
  - symmetry. apply andb_true_iff. split; [apply Z.leb_le | apply Z.ltb_lt]; lia.
Qed.

Lemma resolve_dim_nat (k rk : nat) : k < rk -> resolve_dim (Z.of_nat k) rk = Ok k.
Proof.
  intros H. unfold resolve_dim.
  replace ((- Z.of_nat rk <=? Z.of_nat k)%Z && (Z.of_nat k <? Z.of_nat rk)%Z) with true.
  - rewrite Z.mod_small by lia. by rewrite Nat2Z.id.
  - symmetry. apply andb_true_iff. split; [apply Z.leb_le | apply Z.ltb_lt]; lia.
Qed.

Lemma infer_shape_flatten (n m : nat) :
  m <> 0 -> infer_shape [(-1)%Z; Z.of_nat m] (n * m) = Ok [n; m].
Proof.
  intros Hm. unfold infer_shape.
  rewrite decide_False.
  2:{ intros H. apply Exists_cons in H as [H|H]; [lia|].
      apply Exists_cons in H as [H|H]; [lia|]. by apply Exists_nil in H. }
  assert (Hf1 : filter (fun s : Z => s = (-1)%Z) [(-1)%Z; Z.of_nat m] = [(-1)%Z]).
  { rewrite filter_cons_True by done. rewrite filter_cons_False by lia. done. }
  assert (Hf2 : filter (fun s : Z => s <> (-1)%Z) [(-1)%Z; Z.of_nat m] = [Z.of_nat m]).
  { rewrite filter_cons_False by (intros H; by apply H). rewrite filter_cons_True by lia. done. }
  unfold known_size. rewrite Hf1, Hf2. simpl. rewrite Nat2Z.id, Nat.mul_1_r.
  pose proof (Nat.Div0.mod_mul n m) as Hmod.
  rewrite Nat.div_mul by done.
  repeat case_decide; try (exfalso; lia); try done; by rewrite ?Nat2Z.id.
Qed.

Lemma infer_shape_flatten_zero (n : nat) :
  is_ok (infer_shape [(-1)%Z; 0%Z] n) = false.
Proof.
  unfold infer_shape.
  rewrite decide_False.
  2:{ intros H. apply Exists_cons in H as [H|H]; [lia|].
      apply Exists_cons in H as [H|H]; [lia|]. by apply Exists_nil in H. }
  assert (Hf1 : filter (fun s : Z => s = (-1)%Z) [(-1)%Z; 0%Z] = [(-1)%Z]).
  { rewrite filter_cons_True by done. rewrite filter_cons_False by lia. done. }
  assert (Hf2 : filter (fun s : Z => s <> (-1)%Z) [(-1)%Z; 0%Z] = [0%Z]).
  { rewrite filter_cons_False by (intros H; by apply H). rewrite filter_cons_True by lia. done. }
  unfold known_size. rewrite Hf1, Hf2. simpl.
  repeat case_decide; try (exfalso; lia); done.
Qed.


Lemma unravel_flat (n d K i c : nat) :
  K <> 0 -> c < d * K ->
  unravel [n; d; K] (i * (d * K) + c) = [i; c / K; c mod K].
Proof.
  intros HK Hc. cbn [unravel numel foldr]. rewrite !Nat.mul_1_r, Nat.div_1_r.
  assert (Hq : (i * (d * K) + c) / (d * K) = i).
  { symmetry. apply Nat.div_unique with (r := c); lia. }
  assert (Hr : (i * (d * K) + c) mod (d * K) = c).
  { symmetry. apply Nat.mod_unique with (q := i); lia. }
  rewrite Hq, Hr. done.
Qed.

Lemma bshape_same_or_one (x y : nat) (r : list nat) :
  x = y \/ x = 1 \/ y = 1 ->
  (if decide (x = y) then Some (x :: r)
   else if decide (x = 1) then Some (y :: r)
   else if decide (y = 1) then Some (x :: r) else None)
  = Some ((if decide (x = 1) then y else x) :: r).
Proof. intros H. repeat case_decide; subst; try done; lia. Qed.

(* from P4 *)
Lemma stack_linspace (res : list nat) (K : nat) :
  res <> [] ->
  exists f, torch_stack ((fun r => linspace 1 (INR r / 2) K) <$> res) 0 = Ok f
    /\ shape f = [length res; K]
    /\ forall a k, a < length res -> data f [a; k] = freq_band res K a k.
Proof.
  intros Hne. destruct res as [|r0 res]; [done|].
  unfold torch_stack. rewrite fmap_cons.
  change (rank (linspace 1 (INR r0 / 2) K)) with 1.
  assert (Hd : resolve_dim 0 2 = Ok 0) by reflexivity. rewrite Hd. clear Hd. simpl.
  rewrite decide_True.
  2:{ apply Forall_fmap. apply Forall_forall. intros x _. done. }
  eexists. split; [reflexivity|]. simpl. split.
  - by rewrite length_fmap.
  - intros a k Ha. unfold freq_band.
    change (linspace 1 (INR r0 / 2) K :: ((fun r => linspace 1 (INR r / 2) K) <$> res))
      with ((fun r => linspace 1 (INR r / 2) K) <$> (r0 :: res)).
    rewrite list_lookup_fmap.
    destruct (lookup_lt_is_Some_2 (r0 :: res) a Ha) as [r Hr].
    rewrite Hr. simpl. done.
Qed.

(* from P5 *)
Lemma broadcast_shapes_outer (n d K : nat) :
  broadcast_shapes [n; d; 1] [1; d; K] = Some [n; d; K].
Proof.
  unfold broadcast_shapes. simpl.
  repeat (case_decide; simpl); subst; try done; try lia.
Qed.

Lemma bindex_3 (a b c i j k : nat) :
  i < a -> j < b -> k < c -> bindex [a; b; c] [i; j; k] = [i; j; k].
Proof.
  intros Hi Hj Hk. unfold bindex. simpl.
  repeat case_decide; subst; repeat f_equal; lia.
Qed.

Lemma gff_features pos B n d K res :
  shape pos = [B; n; d] -> length res = d -> B <> 0 -> d <> 0 -> K <> 0 ->
  exists pp,
    (forall (A : Type) (k : tensor -> result A),
       (freq_bands ← torch_stack ((fun r => linspace 1 (INR r / 2) K) <$> res) 0;
        pos0 ← select_first pos;
        pos0' ← unsqueeze pos0 2;
        freq_bands' ← unsqueeze freq_bands 0;
        per_pos_features ← tensor_mul pos0' freq_bands';
        per_pos_features ← reshape per_pos_features
          [(-1)%Z; Z.of_nat (numel (tail (shape per_pos_features)))];
        k per_pos_features) = k pp)
    /\ shape pp = [n; d * K]
    /\ forall i c, i < n -> c < d * K ->
         data pp [i; c] = Rmult (data pos [0; i; c / K]) (freq_band res K (c / K) (c mod K)).
Proof.
  intros Hs Hd HB Hd0 HK.
  destruct (stack_linspace res K) as (f & Hf & Hfs & Hfd).
  { intros ->. simpl in Hd. lia. }
  eexists. split.
  { intros A k. rewrite Hf. simpl.
    unfold select_first. rewrite Hs. rewrite decide_False by done. simpl.
    rewrite Hfs. simpl. rewrite Hd.
    unfold tensor_mul, broadcast_op. cbn [shape]. rewrite broadcast_shapes_outer.
    cbn [mbind result_bind shape tail numel foldr]. unfold reshape. cbn [shape numel foldr].
    rewrite Nat.mul_1_r. rewrite infer_shape_flatten by lia.
    cbn [mbind result_bind]. reflexivity. }
  cbn [shape data]. split; [done|].
  intros i c Hi Hc. cbn [ravel numel foldr]. rewrite !Nat.mul_1_r, Nat.add_0_r.
  rewrite unravel_flat by done.
  assert (Hq : c / K < d) by (apply Nat.Div0.div_lt_upper_bound; lia).
  assert (Hr : c mod K < K) by (apply Nat.mod_upper_bound; lia).
  rewrite <- (Hfd (c / K) (c mod K)) by (rewrite Hd; lia).
  unfold bindex. simpl.
  repeat case_decide; subst; try done;
    try (replace i with 0 by lia); try (replace (c / 1) with 0 by lia);
    try (replace (c / K) with 0 by lia);
    try (replace (c mod 1) with 0 by lia); try done.
Qed.

Lemma cat2_last_2d a b n w1 w2 :
  shape a = [n; w1] -> shape b = [n; w2] ->
  exists r, cat2 1 a b = Ok r /\ shape r = [n; w1 + w2]
    /\ forall i c, data r [i; c] = if c <? w1 then data a [i; c] else data b [i; c - w1].
Proof.
  intros Ha Hb. unfold cat2. rewrite Ha, Hb. simpl.
  rewrite decide_True by done.
  eexists. split; [reflexivity|]. simpl. done.
Qed.

Lemma cat2_last_3d a b B n w1 w2 :
  shape a = [B; n; w1] -> shape b = [B; n; w2] ->
  exists r, cat2 2 a b = Ok r /\ shape r = [B; n; w1 + w2]
    /\ forall b0 i c, data r [b0; i; c]
         = if c <? w1 then data a [b0; i; c] else data b [b0; i; c - w1].
Proof.
  intros Ha Hb. unfold cat2. rewrite Ha, Hb. simpl.
  rewrite decide_True by done.
  eexists. split; [reflexivity|]. simpl. done.
Qed.

Lemma expand_batch t (B n w : nat) :
  shape t = [n; w] ->
  exists e, expand t [Z.of_nat B; (-1)%Z; (-1)%Z] = Ok e /\ shape e = [B; n; w]
    /\ forall b i c, i < n -> c < w -> data e [b; i; c] = data t [i; c].
Proof.
  intros Hs. unfold expand. rewrite Hs. simpl.
  destruct (Z.of_nat B <? 0)%Z eqn:E; [apply Z.ltb_lt in E; lia|].
  simpl. rewrite Nat2Z.id.
  eexists. split; [reflexivity|]. split; [done|].
  intros b i c Hi Hc. simpl. unfold bindex. simpl.
  repeat case_decide; subst; try done;
    try (replace i with 0 by lia); try (replace c with 0 by lia); done.
Qed.

Lemma gff_spec pos B n d K res cp so :
  shape pos = [B; n; d] -> length res = d -> B <> 0 -> d <> 0 -> K <> 0 ->
  exists t,
    generate_fourier_features pos K res cp so = Ok t
    /\ (if cp
        then shape t = [B; n; d + fourier_width res K so]
             /\ forall b i c, b < B -> i < n -> c < d + fourier_width res K so ->
                  data t [b; i; c]
                  = if c <? d then data pos [b; i; c]
                    else fourier_channel res K so (point_of pos i) (c - d)
        else shape t = [n; fourier_width res K so]
             /\ forall i c, i < n -> c < fourier_width res K so ->
                  data t [i; c] = fourier_channel res K so (point_of pos i) c).
Proof.
  intros Hs Hd HB Hd0 HK.
  destruct (gff_features pos B n d K res Hs Hd HB Hd0 HK) as (pp & Hpp & Hps & Hpd).
  unfold generate_fourier_features, shape0. rewrite Hs. cbn [mbind result_bind].
  rewrite Hpp. clear Hpp.
  (* the sinusoidal features *)
  assert (Hfeat : exists ft,
    (if so then Ok (tmap (fun x => sin (PI * x)) pp)
     else torch_cat [tmap (fun x => sin (PI * x)) pp; tmap (fun x => cos (PI * x)) pp] (-1))
    = Ok ft
    /\ shape ft = [n; fourier_width res K so]
    /\ forall i c, i < n -> c < fourier_width res K so ->
         data ft [i; c] = fourier_channel res K so (point_of pos i) c).
  { unfold fourier_width, fourier_channel, point_of. rewrite Hd. destruct so.
    - eexists. split; [reflexivity|]. simpl. split; [done|].
      intros i c Hi Hc. by rewrite Hpd.
    - unfold torch_cat. unfold rank. cbn [tmap shape]. rewrite Hps.
      change (length [n; d * K]) with 2. rewrite (resolve_dim_last 2) by lia.
      cbn [mbind result_bind Nat.sub cat_from].
      destruct (cat2_last_2d (tmap (fun x => sin (PI * x)) pp)
                  (tmap (fun x => cos (PI * x)) pp) n (d * K) (d * K))
        as (r & Hr & Hrs & Hrd); [done|done|].
      rewrite Hr. exists r. split; [done|]. split; [done|].
      intros i c Hi Hc. rewrite Hrd. simpl.
      destruct (Nat.ltb_spec c (d * K)); rewrite Hpd by lia; done. }
  destruct Hfeat as (ft & Hft & Hfs & Hfd). rewrite Hft. cbn [mbind result_bind].
  destruct cp.
  - destruct (expand_batch ft B n _ Hfs) as (e & He & Hes & Hed).
    rewrite He. cbn [mbind result_bind].
    unfold torch_cat, rank. rewrite Hs. change (length [B; n; d]) with 3.
    rewrite (resolve_dim_last 3) by lia. cbn [mbind result_bind Nat.sub cat_from].
    destruct (cat2_last_3d pos e B n d _ Hs Hes) as (r & Hr & Hrs & Hrd).
    rewrite Hr. exists r. split; [done|]. split; [done|].
    intros b i c Hb Hi Hc. rewrite Hrd.
    destruct (Nat.ltb_spec c d); [done|].
    rewrite Hed by lia. apply Hfd; lia.
  - exists ft. split; [done|]. split; [done|]. exact Hfd.
Qed.

Lemma gff_fail pos B n d K res cp so :
  shape pos = [B; n; d] -> length res = d -> B = 0 \/ d = 0 \/ K = 0 ->
  is_ok (generate_fourier_features pos K res cp so) = false.
Proof.
  intros Hs Hd Hz.
  unfold generate_fourier_features, shape0. rewrite Hs. cbn [mbind result_bind].
  destruct (decide (d = 0)) as [->|Hd0].
  { apply length_zero_iff_nil in Hd. subst res. done. }
  destruct (stack_linspace res K) as (f & Hf & Hfs & Hfd).
  { intros ->. simpl in Hd. lia. }
  rewrite Hf. cbn [mbind result_bind].
  unfold select_first. rewrite Hs.
  destruct (decide (B = 0)) as [->|HB]; [done|].
  destruct Hz as [Hz|[Hz|Hz]]; [done|done|]. subst K.
  simpl. rewrite Hfs. simpl. rewrite Hd.
  unfold tensor_mul, broadcast_op. cbn [shape]. rewrite broadcast_shapes_outer.
  cbn [mbind result_bind shape tail numel foldr]. unfold reshape. cbn [shape numel foldr].
  rewrite Nat.mul_0_l, Nat.mul_0_r. change (Z.of_nat 0) with 0%Z.
  match goal with |- context [infer_shape ?a ?b] =>
    pose proof (infer_shape_flatten_zero b) as Hi; destruct (infer_shape a b) end;
    [discriminate|done].
Qed.

(* from P6 *)
Lemma fourier_output_size_width (self : PerceiverFourierPositionEncoding) :
  fourier_output_size self None
  = fourier_width (max_resolution self) (num_bands self) (sine_only self)
    + (if concat_pos self then length (max_resolution self) else 0).
Proof.
  unfold fourier_output_size, fourier_width.
  destruct (sine_only self), (concat_pos self); simpl; lia.
Qed.

Lemma last_3 {A} (a b c : A) : last [a; b; c] = Some c.
Proof. reflexivity. Qed.

(** C1: [output_size()] is [K * d * (1 or 2) + (d or 0)]; every tensor that
    the forward pass returns for positions of [n] points in [d] dimensions has
    that last dimension; and the forward pass does return one when the batch,
    the dimensionality and the number of bands are not zero. *)
Theorem fourier_output_size_matches_forward (self : PerceiverFourierPositionEncoding) :
  let K := num_bands self in
  let d := length (max_resolution self) in
  fourier_output_size self None
    = K * d * (if sine_only self then 1 else 2) + (if concat_pos self then d else 0)
  /\ (forall pos B n index_dims batch_size t,
        shape pos = [B; n; d] ->
        fourier_forward self index_dims batch_size (Some pos) = Ok t ->
        last (shape t) = Some (fourier_output_size self None))
  /\ (forall pos B n index_dims batch_size,
        shape pos = [B; n; d] -> length index_dims = d ->
        B <> 0 -> d <> 0 -> K <> 0 ->
        is_ok (fourier_forward self index_dims batch_size (Some pos)) = true).
Proof.
  intros K d. split; [|split].
  - unfold fourier_output_size. fold K d.
    destruct (sine_only self), (concat_pos self); simpl; lia.
  - intros pos B n index_dims batch_size t Hs H.
    unfold fourier_forward in H. apply bind_Ok in H as (pos' & Hchk & H).
    unfold _check_or_build_spatial_positions, last_dim in Hchk. rewrite Hs in Hchk.
    simpl in Hchk. destruct (decide (d = length index_dims)); [|discriminate].
    inversion Hchk; subst pos'. clear Hchk.
    destruct (decide (B = 0 \/ d = 0 \/ K = 0)) as [Hz|Hnz].
    { pose proof (gff_fail pos B n d K (max_resolution self)
                    (concat_pos self) (sine_only self) Hs eq_refl Hz) as Hf.
      fold K in H. rewrite H in Hf. discriminate. }
    destruct (gff_spec pos B n d K (max_resolution self) (concat_pos self) (sine_only self))
      as (t' & Ht' & Hsh); try done; try lia.
    fold K in H. rewrite H in Ht'. inversion Ht'; subst t'.
    rewrite fourier_output_size_width.
    destruct (concat_pos self); destruct Hsh as [Hsh _]; rewrite Hsh; simpl.
    + f_equal. subst K d. lia.
    + f_equal. subst K d. lia.
  - intros pos B n index_dims batch_size Hs Hi HB Hd HK.
    unfold fourier_forward, _check_or_build_spatial_positions, last_dim.
    rewrite Hs. simpl. rewrite decide_True by done. simpl.
    destruct (gff_spec pos B n d K (max_resolution self) (concat_pos self) (sine_only self))
      as (t' & Ht' & _); try done.
    fold K. by rewrite Ht'.
Qed.

Lemma fourier_channel_ext res K so (x y : nat -> R) c :
  K <> 0 ->
  (forall a, a < length res -> x a = y a) ->
  c < fourier_width res K so ->
  fourier_channel res K so x c = fourier_channel res K so y c.
Proof.
  intros HK Hxy Hc. unfold fourier_channel, fourier_width in *.
  assert (Hdiv : forall c', c' < length res * K -> c' / K < length res).
  { intros c' Hc'. apply Nat.Div0.div_lt_upper_bound. lia. }
  destruct so.
  - rewrite (Hxy (c / K)) by (apply Hdiv; lia). done.
  - destruct (Nat.ltb_spec c (length res * K)).
    + rewrite (Hxy (c / K)) by (apply Hdiv; lia). done.
    + rewrite (Hxy ((c - length res * K) / K)) by (apply Hdiv; lia). done.
Qed.

Lemma in_range_3 a b c i j k : in_range [a; b; c] [i; j; k] <-> i < a /\ j < b /\ k < c.
Proof.
  unfold in_range. split.
  - intros H. inversion H as [|? ? ? ? H1 H2]; subst.
    inversion H2 as [|? ? ? ? H3 H4]; subst. inversion H4; subst. done.
  - intros (? & ? & ?). repeat constructor; done.
Qed.

Lemma in_range_inv_2 a b idx :
  in_range [a; b] idx -> exists i j, idx = [i; j] /\ i < a /\ j < b.
Proof.
  unfold in_range. intros H.
  apply Forall2_cons_inv_r in H as (i & idx1 & Hi & H & ->).
  apply Forall2_cons_inv_r in H as (j & idx2 & Hj & H & ->).
  apply Forall2_nil_inv_r in H as ->. eauto.
Qed.

(** C10: the sinusoidal channels are computed from the first batch element:
    two position tensors that agree on it give the same sinusoidal channels,
    the same for every batch element; only the concatenated raw coordinates
    follow each batch element.  Without [concat_pos] the result has no batch
    axis at all. *)
Theorem fourier_features_use_first_batch_element
    (pos1 pos2 : tensor) (B n d : nat) (num_bands : nat) (max_resolution : list nat)
    (concat_pos sine_only : bool) (t1 t2 : tensor) :
  shape pos1 = [B; n; d] -> shape pos2 = [B; n; d] -> length max_resolution = d ->
  (forall i a, i < n -> a < d -> data pos1 [0; i; a] = data pos2 [0; i; a]) ->
  generate_fourier_features pos1 num_bands max_resolution concat_pos sine_only = Ok t1 ->
  generate_fourier_features pos2 num_bands max_resolution concat_pos sine_only = Ok t2 ->
  shape t1 = shape t2
  /\ (concat_pos = true ->
      forall b i c, in_range (shape t1) [b; i; c] ->
        (d <= c -> data t1 [b; i; c] = data t2 [b; i; c]
                   /\ data t1 [b; i; c] = data t1 [0; i; c])
        /\ (c < d -> data t1 [b; i; c] = data pos1 [b; i; c]))
  /\ (concat_pos = false -> rank t1 = 2 /\ tensor_eq t1 t2).
Proof.
  intros Hs1 Hs2 Hd Hagree H1 H2.
  destruct (decide (B = 0 \/ d = 0 \/ num_bands = 0)) as [Hz|Hnz].
  { pose proof (gff_fail pos1 B n d num_bands max_resolution concat_pos sine_only
                  Hs1 Hd Hz) as Hf. rewrite H1 in Hf. discriminate. }
  assert (HB : B <> 0) by lia. assert (Hd0 : d <> 0) by lia.
  assert (HK : num_bands <> 0) by lia.
  destruct (gff_spec pos1 B n d num_bands max_resolution concat_pos sine_only
              Hs1 Hd HB Hd0 HK) as (u1 & Hu1 & Hsp1).
  destruct (gff_spec pos2 B n d num_bands max_resolution concat_pos sine_only
              Hs2 Hd HB Hd0 HK) as (u2 & Hu2 & Hsp2).
  rewrite H1 in Hu1. inversion Hu1; subst u1.
  rewrite H2 in Hu2. inversion Hu2; subst u2. clear Hu1 Hu2.
  assert (Hext : forall i c, i < n -> c < fourier_width max_resolution num_bands sine_only ->
            fourier_channel max_resolution num_bands sine_only (point_of pos1 i) c
            = fourier_channel max_resolution num_bands sine_only (point_of pos2 i) c).
  { intros i c Hi Hc. apply fourier_channel_ext; [done| |done].
    intros a Ha. unfold point_of. apply Hagree; lia. }
  destruct concat_pos.
  - destruct Hsp1 as [Hsh1 Hv1]. destruct Hsp2 as [Hsh2 Hv2].
    split; [by rewrite Hsh1, Hsh2|]. split; [|done].
    intros _ b i c Hin. rewrite Hsh1 in Hin. apply in_range_3 in Hin as (Hb & Hi & Hc).
    split.
    + intros Hdc. rewrite !Hv1, Hv2 by lia.
      destruct (Nat.ltb_spec c d); [lia|]. split; [|done].
      apply Hext; lia.
    + intros Hdc. rewrite Hv1 by lia. destruct (Nat.ltb_spec c d); [done|lia].
  - destruct Hsp1 as [Hsh1 Hv1]. destruct Hsp2 as [Hsh2 Hv2].
    split; [by rewrite Hsh1, Hsh2|]. split; [done|]. intros _.
    split; [unfold rank; by rewrite Hsh1|].
    split; [by rewrite Hsh1, Hsh2|].
    intros idx Hin. rewrite Hsh1 in Hin.
    apply in_range_inv_2 in Hin as (i & c & -> & Hi & Hc).
    rewrite Hv1, Hv2 by done. by apply Hext.
Qed.



Lemma nn_Linear_not_ValueError init name i o :
  is_ValueError (nn_Linear init name i o) = false.
Proof. by destruct i, o. Qed.


(* from P9 *)
Lemma last_snoc_but_last {A} (l : list A) (x : A) : last (but_last l ++ [x]) = Some x.
Proof. apply last_snoc. Qed.

Lemma Linear_forward_shape l x y :
  Linear_forward l x = Ok y ->
  last (shape x) = Some (in_features l)
  /\ shape y = but_last (shape x) ++ [out_features l].
Proof.
  unfold Linear_forward, last_dim. intros H.
  destruct (last (shape x)) as [d|]; [|discriminate]. simpl in H.
  destruct (decide (d = in_features l)) as [->|]; [|discriminate].
  by inversion H.
Qed.

Lemma LayerNorm_forward_shape l x y :
  LayerNorm_forward l x = Ok y ->
  last (shape x) = Some (normalized_shape l) /\ shape y = shape x.
Proof.
  unfold LayerNorm_forward, last_dim. intros H.
  destruct (last (shape x)) as [d|]; [|discriminate]. simpl in H.
  destruct (decide (d = normalized_shape l)) as [->|]; [|discriminate].
  by inversion H.
Qed.

Lemma PerceiverMLP_forward_fails (self : PerceiverMLP) (x : tensor) :
  out_features (dense1 self) <> in_features (dense2 self) ->
  is_ok (PerceiverMLP_forward self x) = false.
Proof.
  intros Hne. unfold PerceiverMLP_forward.
  destruct (Linear_forward (dense1 self) x) as [y|] eqn:E1; [|done].
  cbn [mbind result_bind].
  destruct (Linear_forward (dense2 self) _) as [z|] eqn:E2; [|done].
  exfalso. apply Linear_forward_shape in E1 as [_ Hy].
  apply Linear_forward_shape in E2 as [Hz _].
  cbn [tmap shape] in Hz. rewrite Hy, last_snoc in Hz. by inversion Hz.
Qed.

Lemma feed_forward_chunk_fails (self : PerceiverLayer) (x : tensor) :
  out_features (dense1 (mlp self)) <> in_features (dense2 (mlp self)) ->
  is_ok (feed_forward_chunk self x) = false.
Proof.
  intros Hne. unfold feed_forward_chunk.
  destruct (LayerNorm_forward _ _); [|done]. by apply PerceiverMLP_forward_fails.
Qed.

Lemma mapM_result_length {A B} (f : A -> result B) l k :
  mapM f l = Ok k -> length k = length l.
Proof.
  revert k. induction l as [|x l IH]; intros k H; simpl in H.
  - by inversion H.
  - apply bind_Ok in H as (y & _ & H). apply bind_Ok in H as (k' & Hk & H).
    inversion H; subst. simpl. f_equal. by apply IH.
Qed.

Lemma mapM_result_fails {A B} (f : A -> result B) l :
  l <> [] -> (forall x, is_ok (f x) = false) -> is_ok (mapM f l) = false.
Proof.
  intros Hl Hf. destruct l as [|x l]; [done|]. simpl.
  specialize (Hf x). by destruct (f x).
Qed.

Lemma apply_chunking_fails (f : tensor -> result tensor) (chunk_size : nat) (x : tensor) :
  (forall y, is_ok (f y) = false) ->
  is_ok (apply_chunking_to_forward f chunk_size x) = false.
Proof.
  intros Hf. unfold apply_chunking_to_forward.
  destruct (decide (0 < chunk_size)); [|apply Hf].
  destruct (shape x !! 1) as [n|]; [|done].
  destruct (decide (n mod chunk_size <> 0)); [done|].
  destruct (decide (n / chunk_size = 0)) as [|Hn]; [done|].
  destruct (mapM _ (seq 0 (n / chunk_size))) as [chunks|] eqn:E; [|done].
  cbn [mbind result_bind].
  assert (Hc : is_ok (mapM f chunks) = false).
  { apply mapM_result_fails; [|done]. intros ->.
    apply mapM_result_length in E. rewrite length_seq in E. simpl in E. lia. }
  by destruct (mapM f chunks).
Qed.

Lemma PerceiverLayer_init_mlp init name config is_cross qk v h W kv m res layer :
  PerceiverLayer_init init name config is_cross qk v h (Some W) kv m res = Ok layer ->
  in_features (dense1 (mlp layer)) = W
  /\ out_features (dense1 (mlp layer)) = m * W
  /\ in_features (dense2 (mlp layer)) = W
  /\ out_features (dense2 (mlp layer)) = W
  /\ normalized_shape (layernorm layer) = W.
Proof.
  unfold PerceiverLayer_init. intros H.
  apply bind_Ok in H as (att & _ & H). simpl in H. by inversion H.
Qed.

(** C6: the second dense layer of the feed-forward block is built with
    [input_size] input features, not the [widening_factor * input_size]
    features that the first one produces, so the forward pass of a layer whose
    widening factor is not 1 stops with an error instead of projecting back. *)
Theorem widened_feed_forward_fails
    init dropout_mask name config is_cross qk v h W kv m res layer
    hidden_states attention_mask head_mask inputs inputs_mask output_attentions :
  m <> 1 -> W <> 0 ->
  PerceiverLayer_init init name config is_cross qk v h (Some W) kv m res = Ok layer ->
  is_ok (PerceiverLayer_forward dropout_mask layer hidden_states attention_mask head_mask
           inputs inputs_mask output_attentions) = false.
Proof.
  intros Hm HW Hinit.
  apply PerceiverLayer_init_mlp in Hinit as (_ & Ho & Hi & _).
  unfold PerceiverLayer_forward.
  destruct (PerceiverAttention_forward _ _ _ _ _ _ _ _) as [ao|]; [|done].
  cbn [mbind result_bind].
  assert (Hf : is_ok (apply_chunking_to_forward (feed_forward_chunk layer)
                        (layer_chunk_size_feed_forward layer) ao.1) = false).
  { apply apply_chunking_fails. intros y. apply feed_forward_chunk_fails.
    rewrite Ho, Hi. nia. }
  by destruct (apply_chunking_to_forward _ _ _).
Qed.

(* from P10 *)
Ltac inv_binds H :=
  repeat first
    [ apply bind_Ok in H as (? & ? & H)
    | match type of H with
      | (let '(_, _) := ?p in _) = _ => destruct p
      | (if ?b then _ else _) = Ok _ => destruct b eqn:?; [|discriminate H]
      end ].

Lemma PerceiverSelfAttention_forward_attentions dm self x am hm inp im oa y a :
  PerceiverSelfAttention_forward dm self x am hm inp im oa = Ok (y, a) ->
  oa = true -> is_Some a.
Proof.
  unfold PerceiverSelfAttention_forward. intros H ->.
  inv_binds H. inversion H; subst. eauto.
Qed.

Lemma PerceiverAttention_forward_attentions dm self x am hm inp im oa y a :
  PerceiverAttention_forward dm self x am hm inp im oa = Ok (y, a) ->
  oa = true -> is_Some a.
Proof.
  unfold PerceiverAttention_forward. intros H Hoa.
  apply bind_Ok in H as ([ctx att] & Hself & H).
  apply bind_Ok in H as (proj & _ & H). apply bind_Ok in H as (out & _ & H).
  inversion H; subst. eapply PerceiverSelfAttention_forward_attentions; eauto.
Qed.

Lemma PerceiverLayer_forward_attentions dm self x am hm inp im oa y a :
  PerceiverLayer_forward dm self x am hm inp im oa = Ok (y, a) ->
  oa = true -> is_Some a.
Proof.
  unfold PerceiverLayer_forward. intros H Hoa.
  apply bind_Ok in H as ([ao att] & Hatt & H).
  apply bind_Ok in H as (lo & _ & H). apply bind_Ok in H as (out & _ & H).
  inversion H; subst. eapply PerceiverAttention_forward_attentions; eauto.
Qed.

Lemma push_Some flag acc x :
  (flag = true -> is_Some acc) -> (flag = true -> is_Some x) ->
  exists acc', push flag acc x = Ok acc' /\ (flag = true -> is_Some acc').
Proof.
  intros Hacc Hx. unfold push. destruct flag.
  - destruct Hacc as [l ->]; [done|]. destruct Hx as [y ->]; [done|]. eauto.
  - eauto.
Qed.

Lemma encoder_block_stack dm layers :
  forall i am hm oa ohs st,
    flags_ok oa ohs st ->
    match encoder_block dm layers i am hm oa ohs st with
    | Ok st' => self_attention_stack dm layers i am hm oa (st_hidden st) = Ok (st_hidden st')
                /\ flags_ok oa ohs st'
    | Raise e => self_attention_stack dm layers i am hm oa (st_hidden st) = Raise e
    end.
Proof.
  induction layers as [|l layers IH]; intros i am hm oa ohs st [Hhs Hat]; simpl.
  - done.
  - destruct (push_Some ohs (st_hidden_states st) (Some (st_hidden st)))
      as (hs & Hpush & Hhs'); [done|eauto|].
    rewrite Hpush. cbn [mbind result_bind].
    destruct (layer_head_mask_at hm i) as [m|e]; [|done]. cbn [mbind result_bind].
    destruct (PerceiverLayer_forward dm l (st_hidden st) am m None None oa)
      as [[y a]|e] eqn:El; [|done].
    cbn [mbind result_bind fst snd].
    destruct (push_Some oa (st_attentions st) a) as (atts & Hpa & Hat'); [done| |].
    { intros Hoa. eapply PerceiverLayer_forward_attentions; eauto. }
    rewrite Hpa. cbn [mbind result_bind].
    apply (IH (S i) am hm oa ohs
             {| st_hidden := y; st_hidden_states := hs; st_attentions := atts |}).
    split; done.
Qed.

Lemma iter_bind_Raise {A} (f : A -> result A) n e :
  Nat.iter n (fun r => r ≫= f) (Raise e) = Raise e.
Proof. induction n as [|n IH]; [done|]. simpl. by rewrite IH. Qed.

Lemma encoder_blocks_iter dm layers n :
  forall am hm oa ohs st,
    flags_ok oa ohs st ->
    st_hidden <$> encoder_blocks dm n layers am hm oa ohs st
    = Nat.iter n (fun r => r ≫= self_attention_stack dm layers 0 am hm oa)
        (Ok (st_hidden st)).
Proof.
  induction n as [|n IH]; intros am hm oa ohs st Hfl; [done|].
  cbn [encoder_blocks]. rewrite Nat.iter_succ_r.
  pose proof (encoder_block_stack dm layers 0 am hm oa ohs st Hfl) as Hb.
  destruct (encoder_block dm layers 0 am hm oa ohs st) as [st'|e].
  - destruct Hb as [Hst [Hhs Hat]]. cbn [mbind result_bind]. rewrite Hst.
    destruct (push_Some ohs (st_hidden_states st') (Some (st_hidden st')))
      as (hs & Hpush & Hhs'); [done|eauto|].
    rewrite Hpush. cbn [mbind result_bind].
    rewrite (IH am hm oa ohs
               {| st_hidden := st_hidden st'; st_hidden_states := hs;
                  st_attentions := st_attentions st' |}); [done|].
    split; done.
  - cbn [mbind result_bind fmap result_fmap]. rewrite Hb.
    by rewrite iter_bind_Raise.
Qed.

Lemma encoder_last_hidden_state
    dropout_mask (self : PerceiverEncoder) hidden_states attention_mask head_mask
    inputs inputs_mask output_attentions output_hidden_states :
  last_hidden_state <$> PerceiverEncoder_forward dropout_mask self hidden_states
                          attention_mask head_mask inputs inputs_mask
                          output_attentions output_hidden_states
  = encoder_spec dropout_mask self hidden_states attention_mask head_mask
      inputs inputs_mask output_attentions.
Proof.
  unfold PerceiverEncoder_forward, encoder_spec.
  destruct (PerceiverLayer_forward dropout_mask (cross_attention self) hidden_states
              attention_mask None inputs inputs_mask output_attentions)
    as [[y a]|e] eqn:Ec; [|done].
  cbn [mbind result_bind fst snd].
  destruct (push_Some output_attentions (if output_attentions then Some [] else None) a)
    as (ca & Hpush & _).
  { by destruct output_attentions; eauto. }
  { intros Hoa. eapply PerceiverLayer_forward_attentions; eauto. }
  rewrite Hpush. cbn [mbind result_bind].
  pose proof (encoder_blocks_iter dropout_mask (self_attends self)
                (num_blocks (enc_config self)) attention_mask head_mask
                output_attentions output_hidden_states
                {| st_hidden := y;
                   st_hidden_states := if output_hidden_states then Some [] else None;
                   st_attentions := if output_attentions then Some [] else None |}) as Hit.
  cbn [st_hidden] in Hit. rewrite <- Hit.
  - by destruct (encoder_blocks _ _ _ _ _ _ _ _).
  - split; simpl; intros ->; eauto.
Qed.







(* from P12 *)
Lemma tensor_eq_refl t : tensor_eq t t.
Proof. by split. Qed.

Lemma tensor_eq_sym t u : tensor_eq t u -> tensor_eq u t.
Proof.
  intros [Hs Hd]. split; [done|]. intros idx Hi. symmetry. apply Hd. by rewrite Hs.
Qed.















(* from P14 *)
(** C8: with [concat_preprocessed_input] set, [decoder_query] never returns
    a tensor: without [inputs_without_pos] it raises, and with it the
    concatenation is called with the keyword [div] and raises as well. *)
Theorem concat_preprocessed_query_never_returns
    (self : PerceiverBasicDecoder) (inputs : tensor)
    (inputs_without_pos : option tensor) (subsampled_points : option (list nat)) :
  concat_preprocessed_input self = true ->
  is_ok (PerceiverBasicDecoder_decoder_query self inputs inputs_without_pos
           subsampled_points) = false.
Proof.
  intros Hcat. unfold PerceiverBasicDecoder_decoder_query. rewrite Hcat.
  destruct (decide (position_encoding_type self = "none")); [done|].
  match goal with |- is_ok (?m ≫= _) = false => destruct m as [pos_emb|]; [|done] end.
  cbn [mbind result_bind]. destruct inputs_without_pos; done.
Qed.

Lemma PerceiverSelfAttention_init_v init name config is_cross qk v h q kv sa :
  PerceiverSelfAttention_init init name config is_cross qk v h q kv = Ok sa ->
  sa_v_channels sa = default 0 (resolved_v_channels qk v q).
Proof.
  unfold PerceiverSelfAttention_init. cbv zeta. intros Hsa.
  apply bind_Ok in Hsa as (r1 & Hr1 & Hsa).
  destruct (decide (r1 <> 0)); [discriminate|].
  apply bind_Ok in Hsa as (r2 & Hr2 & Hsa).
  destruct (decide (r2 <> 0)); [discriminate|].
  repeat (apply bind_Ok in Hsa as (? & ? & Hsa)).
  inversion Hsa; subst sa. done.
Qed.

Lemma nn_Linear_features init name i o l :
  nn_Linear init name i o = Ok l -> i = Some (in_features l) /\ o = Some (out_features l).
Proof. unfold nn_Linear. destruct i, o; intros H; inversion H; by subst. Qed.

(** C7, as amended: the merged heads are projected to [q_dim] in a
    cross-attention module and to the resolved [v_channels] in a
    self-attention module (which is [q_dim] when [qk_channels] and
    [v_channels] are left unset); with [use_query_residual] the un-normalized
    query input is added to the projected output. *)
Theorem attention_output_projection
    init name config is_cross_attention qk_channels v_channels num_heads
    (q_dim : nat) kv_dim residual (self : PerceiverAttention) :
  PerceiverAttention_init init name config is_cross_attention qk_channels v_channels
    num_heads (Some q_dim) kv_dim residual = Ok self ->
  in_features (dense (attn_output self)) = sa_v_channels (attn_self self)
  /\ out_features (dense (attn_output self))
     = (if is_cross_attention then q_dim else sa_v_channels (attn_self self))
  /\ (is_cross_attention = false -> qk_channels = None -> v_channels = None ->
      sa_v_channels (attn_self self) = q_dim)
  /\ use_query_residual self = residual
  /\ forall dropout_mask hidden_states attention_mask head_mask inputs inputs_mask
            output_attentions out,
       PerceiverAttention_forward dropout_mask self hidden_states attention_mask
         head_mask inputs inputs_mask output_attentions = Ok out ->
       exists ctx proj,
         PerceiverSelfAttention_forward dropout_mask (attn_self self) hidden_states
           attention_mask head_mask inputs inputs_mask output_attentions = Ok ctx
         /\ Linear_forward (dense (attn_output self)) ctx.1 = Ok proj
         /\ last (shape proj) = Some (out_features (dense (attn_output self)))
         /\ (if residual then tensor_add proj hidden_states = Ok out.1
             else out.1 = proj)
         /\ out.2 = ctx.2.
Proof.
  intros Hinit. unfold PerceiverAttention_init in Hinit.
  apply bind_Ok in Hinit as ([qk v] & Hres & Hinit).
  apply bind_Ok in Hinit as (sa & Hsa & Hinit).
  apply bind_Ok in Hinit as (so & Hso & Hinit).
  inversion Hinit; subst self. clear Hinit. cbn [attn_self attn_output use_query_residual].
  unfold PerceiverSelfOutput_init in Hso.
  apply bind_Ok in Hso as (dn & Hdn & Hso). inversion Hso; subst so. clear Hso.
  cbn [dense].
  apply nn_Linear_features in Hdn as [Hin Hout]. inversion Hin as [Hin'].
  pose proof (PerceiverSelfAttention_init_v _ _ _ _ _ _ _ _ _ _ Hsa) as Hsv.
  assert (Hself : is_cross_attention = false ->
            qk = resolved_qk_channels qk_channels (Some q_dim)
            /\ v = resolved_v_channels qk_channels v_channels (Some q_dim)).
  { intros ->. simpl in Hres. inversion Hres; subst. done. }
  split; [done|]. split; [|split; [|split; [done|]]].
  - destruct is_cross_attention; [by inversion Hout|].
    rewrite Hout in Hsv. simpl in Hsv. by rewrite Hsv.
  - intros Hc -> ->. destruct (Hself Hc) as [-> ->]. by rewrite Hsv.
  - intros dm x am hm inp im oa out Hfwd.
    unfold PerceiverAttention_forward in Hfwd. cbn [attn_self attn_output use_query_residual] in Hfwd.
    apply bind_Ok in Hfwd as (ctx & Hctx & Hfwd).
    apply bind_Ok in Hfwd as (proj & Hproj & Hfwd).
    apply bind_Ok in Hfwd as (ao & Hao & Hfwd).
    inversion Hfwd; subst out. clear Hfwd. cbn [fst snd].
    exists ctx, proj. split; [done|]. split; [done|]. split.
    + unfold PerceiverSelfOutput_forward in Hproj. cbn [dense] in Hproj.
      apply Linear_forward_shape in Hproj as [_ Hs]. rewrite Hs. apply last_snoc.
    + split; [|done]. destruct residual; [done|]. by inversion Hao.
Qed.

(* from P15 *)
(** C9: when the trailing dimension of the preprocessed input differs from
    [d_model], the forward call ends in the shape-mismatch error having only
    preprocessed and printed; when it agrees, the check passes and the call
    goes on to the rest of the pipeline, starting with the attention mask. *)
Theorem forward_checks_trailing_dimension_first
    dropout_mask invert_attention_mask get_head_mask
    (self : PerceiverModel) (inputs : model_input)
    attention_mask subsampled_output_points head_mask
    output_attentions output_hidden_states
    (x : tensor) modality_sizes inputs_without_pos (d : nat) :
  preprocessed self inputs x modality_sizes inputs_without_pos ->
  last (shape x) = Some d ->
  let run := PerceiverModel_forward dropout_mask invert_attention_mask get_head_mask
               self inputs attention_mask subsampled_output_points head_mask
               output_attentions output_hidden_states in
  let before := preprocess_events self
                ++ [EvPrint "Shape of inputs before going into perceiver:"] in
  (d <> d_model (model_config self) ->
     run = Prog before (Raise shape_mismatch))
  /\ (d = d_model (model_config self) ->
        check_d_model (model_config self) x = Ok (shape x)
        /\ exists rest,
             rest = forward_after_check dropout_mask invert_attention_mask get_head_mask
                      self x (shape x) modality_sizes inputs_without_pos attention_mask
                      subsampled_output_points head_mask
                      (default (config_output_attentions (model_config self)) output_attentions)
                      (default (config_output_hidden_states (model_config self))
                         output_hidden_states)
             /\ run = Prog (before ++ trace rest) (outcome rest)
             /\ (forall b n, shape x = [b; n; d] ->
                   exists tr, trace rest = EvInvertAttentionMask :: tr)).
Proof.
  intros Hpre Hlast run before.
  assert (Hchk : check_d_model (model_config self) x
                 = if decide (d <> d_model (model_config self))
                   then Raise shape_mismatch else Ok (shape x)).
  { unfold check_d_model, last_dim. by rewrite Hlast. }
  subst run before. unfold PerceiverModel_forward, preprocess_events.
  unfold preprocessed in Hpre.
  assert (Hrest : forall ms iwp am sp hm oa ohs b n,
            shape x = [b; n; d] ->
            exists tr, trace (forward_after_check dropout_mask invert_attention_mask
                                get_head_mask self x (shape x) ms iwp am sp hm oa ohs)
                       = EvInvertAttentionMask :: tr).
  { intros ms iwp am sp hm oa ohs b n Hs. rewrite Hs. unfold forward_after_check.
    unfold call, step. cbn [mbind prog_bind outcome trace app].
    destruct (invert_attention_mask _); cbn [trace app]; eauto. }
  destruct (input_preprocessor self) as [pre|].
  - rewrite Hpre. unfold call, step. cbn [mbind prog_bind outcome trace app].
    rewrite Hchk. split.
    + intros Hne. rewrite decide_True by done. reflexivity.
    + intros Heq. rewrite decide_False by (intros ?; done).
      split; [done|]. eexists. split; [reflexivity|]. split; [reflexivity|].
      apply Hrest.
  - destruct Hpre as (-> & -> & ->). unfold call, step.
    cbn [mbind prog_bind outcome trace app]. rewrite Hchk. split.
    + intros Hne. rewrite decide_True by done. reflexivity.
    + intros Heq. rewrite decide_False by (intros ?; done).
      split; [done|]. eexists. split; [reflexivity|]. split; [reflexivity|].
      apply Hrest.
Qed.

(** ** Position encoding width *)

Lemma fourier_output_size_matches_forward_witness :
  (exists t, fourier_forward fourier0 [3; 1] 1 (Some (zeros [1; 3; 2])) = Ok t
             /\ last (shape t) = Some 10)
  /\ is_ok (fourier_forward fourier0 [3; 1] 1 (Some (zeros [1; 3; 2]))) = true.
Proof.
  split.
  - eexists. split.
    + vm_compute. reflexivity.
    + apply (proj1 (proj2 (fourier_output_size_matches_forward fourier0))
               (zeros [1; 3; 2]) 1 3 [3; 1] 1); [reflexivity | vm_compute; reflexivity].
  - apply (proj2 (proj2 (fourier_output_size_matches_forward fourier0))
             (zeros [1; 3; 2]) 1 3 [3; 1] 1); [reflexivity | reflexivity | | |]; simpl; lia.
Defined.

(** ** Restructuring *)

(** C2: cutting a [batch, N, channels] tensor by the recorded modality sizes
    and concatenating the pieces again, both in alphabetical modality order,
    gives back the tensor; and the sizes recorded by the multimodal
    preprocessor, of which there is at least one, add up to the sequence
    length of its output. *)
Theorem restructure_concat_roundtrip :
  (forall (modality_sizes : gmap string nat) (inputs : tensor) (B N C : nat),
      modality_sizes <> ∅ -> shape inputs = [B; N; C] ->
      total_size modality_sizes = N ->
      exists parts r,
        restructure modality_sizes inputs = Ok parts
        /\ concat_sorted parts = Ok r /\ tensor_eq r inputs)
  /\ (forall bernoulli_draw self inputs pos network_input_is_1d
             final_inputs modality_sizes inputs_without_pos,
        PerceiverMultimodalPreprocessor_forward bernoulli_draw self inputs pos
          network_input_is_1d = Ok (final_inputs, modality_sizes, inputs_without_pos) ->
        modality_sizes <> ∅
        /\ shape final_inputs !! 1 = Some (total_size modality_sizes)).
Proof.
  split.
  - intros. by eapply restructure_roundtrip.
  - intros. split.
    + by eapply multimodal_sizes_nonempty.
    + by eapply multimodal_sizes_sum.
Qed.

Lemma restructure_concat_roundtrip_witness :
  (exists parts r,
      restructure sizes0 (zeros [1; 3; 2]) = Ok parts
      /\ concat_sorted parts = Ok r /\ tensor_eq r (zeros [1; 3; 2]))
  /\ match PerceiverMultimodalPreprocessor_forward never_masked multimodal0 inputs0
            None true with
     | Ok (final_inputs, modality_sizes, _) =>
         shape final_inputs !! 1 = Some (total_size modality_sizes)
     | Raise _ => False
     end.
Proof.
  split.
  - apply (proj1 restructure_concat_roundtrip sizes0 (zeros [1; 3; 2]) 1 3 2).
    + intros H. apply (f_equal (fun m => m !! "audio")) in H. vm_compute in H. discriminate.
    + reflexivity.
    + vm_compute. reflexivity.
  - destruct (PerceiverMultimodalPreprocessor_forward never_masked multimodal0 inputs0
                None true) as [[[final_inputs modality_sizes] without]|e] eqn:E.
    + exact (proj2 (proj2 restructure_concat_roundtrip never_masked multimodal0 inputs0
                      None true final_inputs modality_sizes without E)).
    + vm_compute in E. discriminate.
Defined.

(** ** Encoder *)

Lemma PerceiverEncoder_init_fields init name config enc :
  PerceiverEncoder_init init name config = Ok enc ->
  enc_config enc = config
  /\ length (self_attends enc) = num_self_attends_per_block config.
Proof.
  unfold PerceiverEncoder_init. intros H.
  apply bind_Ok in H as (r1 & _ & H). destruct (decide (r1 <> 0)); [discriminate|].
  apply bind_Ok in H as (r2 & _ & H). destruct (decide (r2 <> 0)); [discriminate|].
  apply bind_Ok in H as (cross & _ & H). apply bind_Ok in H as (layers & Hl & H).
  inversion H; subst enc. split; [done|]. cbn [self_attends].
  apply mapM_result_length in Hl. by rewrite Hl, length_seq.
Qed.

(** C3: the last hidden state of the encoder's forward pass is one
    cross-attention layer followed by [num_blocks] applications of the one
    stack [self_attends]; with [num_blocks = 2] that stack is applied twice in
    sequence; and the constructor builds [num_self_attends_per_block] layers,
    whatever [num_blocks] is. *)
Theorem encoder_forward_iterates_one_stack :
  (forall dropout_mask (self : PerceiverEncoder) hidden_states attention_mask head_mask
          inputs inputs_mask output_attentions output_hidden_states,
      let run := last_hidden_state <$>
                   PerceiverEncoder_forward dropout_mask self hidden_states
                     attention_mask head_mask inputs inputs_mask
                     output_attentions output_hidden_states in
      let stack := self_attention_stack dropout_mask (self_attends self) 0
                     attention_mask head_mask output_attentions in
      run = encoder_spec dropout_mask self hidden_states attention_mask head_mask
              inputs inputs_mask output_attentions
      /\ (num_blocks (enc_config self) = 2 ->
          run = (layer_outputs ← PerceiverLayer_forward dropout_mask (cross_attention self)
                                   hidden_states attention_mask None inputs inputs_mask
                                   output_attentions;
                 hidden_states ← stack layer_outputs.1;
                 stack hidden_states)))
  /\ (forall init name config enc,
        PerceiverEncoder_init init name config = Ok enc ->
        enc_config enc = config
        /\ length (self_attends enc) = num_self_attends_per_block config).
Proof.
  split.
  - intros dropout_mask self hidden_states attention_mask head_mask
      inputs inputs_mask output_attentions output_hidden_states run stack.
    assert (Hrun : run = encoder_spec dropout_mask self hidden_states attention_mask
                           head_mask inputs inputs_mask output_attentions)
      by apply encoder_last_hidden_state.
    split; [done|]. intros H2. rewrite Hrun. unfold encoder_spec. rewrite H2.
    destruct (PerceiverLayer_forward _ _ _ _ _ _ _ _) as [lo|e]; [|done].
    cbn [mbind result_bind Nat.iter nat_rect]. done.
  - apply PerceiverEncoder_init_fields.
Qed.

Lemma encoder_forward_iterates_one_stack_witness :
  match PerceiverEncoder_init init0 "encoder" config0 with
  | Ok enc =>
      length (self_attends enc) = 1
      /\ last_hidden_state <$>
           PerceiverEncoder_forward keep_all enc (zeros [1; 2; 4]) None None
             (Some (zeros [1; 3; 4])) None false false
         = (layer_outputs ← PerceiverLayer_forward keep_all (cross_attention enc)
                              (zeros [1; 2; 4]) None None (Some (zeros [1; 3; 4])) None false;
            hidden_states ← self_attention_stack keep_all (self_attends enc) 0 None None
                              false layer_outputs.1;
            self_attention_stack keep_all (self_attends enc) 0 None None false hidden_states)
  | Raise _ => False
  end.
Proof.
  destruct (PerceiverEncoder_init init0 "encoder" config0) as [enc|e] eqn:E.
  - destruct (proj2 encoder_forward_iterates_one_stack init0 "encoder" config0 enc E)
      as [Hc Hl].
    split; [exact Hl|].
    apply (proj1 encoder_forward_iterates_one_stack keep_all enc (zeros [1; 2; 4])
             None None (Some (zeros [1; 3; 4])) None false false).
    rewrite Hc. reflexivity.
  - vm_compute in E. discriminate.
Defined.

(** ** Constructors *)



(** ** Feed-forward block *)

Lemma widened_feed_forward_fails_witness :
  match PerceiverLayer_init init0 "layer" config0 false None None 1
          (Some 4) (Some 4) 4 true with
  | Ok layer =>
      is_ok (PerceiverLayer_forward keep_all layer (zeros [1; 2; 4])
               None None None None false) = false
  | Raise _ => False
  end.
Proof.
  destruct (PerceiverLayer_init init0 "layer" config0 false None None 1
              (Some 4) (Some 4) 4 true) as [layer|e] eqn:E.
  - apply (widened_feed_forward_fails init0 keep_all "layer" config0 false None None 1
             4 (Some 4) 4 true layer); [lia | lia | exact E].
  - vm_compute in E. discriminate.
Defined.

(** ** Attention output projection *)

(** C7 as stated fails: a self-attention module with [q_dim = 4] and
    [v_channels = 2] projects its output to width 2. *)
Lemma self_attention_projection_counterexample :
  match PerceiverAttention_init init0 "attention" config0 false None (Some 2) 1
          (Some 4) (Some 4) false with
  | Ok self =>
      match PerceiverAttention_forward keep_all self (zeros [1; 2; 4])
              None None None None false with
      | Ok out => last (shape out.1) = Some 2 /\ last (shape out.1) <> Some 4
      | Raise _ => False
      end
  | Raise _ => False
  end.
Proof. vm_compute. split; [reflexivity | discriminate]. Qed.

Lemma attention_output_projection_witness :
  match PerceiverAttention_init init0 "attention" config0 true None None 2
          (Some 4) (Some 6) true with
  | Ok self =>
      out_features (dense (attn_output self)) = 4
      /\ use_query_residual self = true
  | Raise _ => False
  end.
Proof.
  destruct (PerceiverAttention_init init0 "attention" config0 true None None 2
              (Some 4) (Some 6) true) as [self|e] eqn:E.
  - destruct (attention_output_projection init0 "attention" config0 true None None 2
                4 (Some 6) true self E) as (_ & Hout & _ & Hres & _).
    split; [exact Hout | exact Hres].
  - vm_compute in E. discriminate.
Defined.

(** ** Decoder queries *)

Lemma concat_preprocessed_query_never_returns_witness :
  match basic_decoder0 "trainable" [4] true trainable_kwargs0 with
  | Ok self =>
      PerceiverBasicDecoder_decoder_query self (zeros [1; 4; 3]) (Some (zeros [1; 4; 2])) None
        = Raise (TypeError "cat() received an invalid combination of arguments")
      /\ is_ok (PerceiverBasicDecoder_decoder_query self (zeros [1; 4; 3])
                  (Some (zeros [1; 4; 2])) None) = false
  | Raise _ => False
  end.
Proof.
  destruct (basic_decoder0 "trainable" [4] true trainable_kwargs0) as [self|e] eqn:E.
  - split.
    + vm_compute in E. inversion E; subst self. vm_compute. reflexivity.
    + apply concat_preprocessed_query_never_returns.
      vm_compute in E. inversion E; subst self. reflexivity.
  - vm_compute in E. discriminate.
Defined.


(** The Fourier query of a subsampled point is not the entry of the full-grid
    query at that flat index: on an axis of two positions the grid's second
    entry carries the coordinate 1, the subsampled index 1 the coordinate 0. *)
Lemma subsampled_fourier_query_differs_from_grid :
  match basic_decoder0 "fourier" [2] false fourier_kwargs0 with
  | Ok self =>
      match PerceiverBasicDecoder_decoder_query self (zeros [1; 5; 2]) None (Some [1]),
            PerceiverBasicDecoder_decoder_query self (zeros [1; 5; 2]) None None with
      | Ok q, Ok grid =>
          shape q = [1; 1; 3] /\ shape grid = [1; 2; 3]
          /\ data q [0; 0; 0] = 0%R /\ data grid [0; 1; 0] = 1%R
      | _, _ => False
      end
  | Raise _ => False
  end.
Proof.
  destruct (basic_decoder0 "fourier" [2] false fourier_kwargs0) as [self|e] eqn:E;
    [|vm_compute in E; discriminate].
  vm_compute in E. inversion E; subst self. clear E.
  destruct (PerceiverBasicDecoder_decoder_query _ (zeros [1; 5; 2]) None (Some [1]))
    as [q|e1] eqn:E1; [|vm_compute in E1; discriminate].
  destruct (PerceiverBasicDecoder_decoder_query _ (zeros [1; 5; 2]) None None)
    as [g|e2] eqn:E2; [|vm_compute in E2; discriminate].
  vm_compute in E1. inversion E1; subst q. clear E1.
  vm_compute in E2. inversion E2; subst g. clear E2.
  split; [reflexivity|]. split; [reflexivity|]. cbn. split; lra.
Qed.



(** ** Orchestrator *)

Lemma forward_checks_trailing_dimension_first_witness :
  match PerceiverModel_init init0 "perceiver" config0 None None None with
  | Ok self =>
      PerceiverModel_forward keep_all identity_mask no_head_mask self
        (TensorInput (zeros [1; 3; 5])) None None None None None
      = Prog [EvPrint "Shape of inputs before going into perceiver:"] (Raise shape_mismatch)
      /\ check_d_model (model_config self) (zeros [1; 3; 4]) = Ok [1; 3; 4]
  | Raise _ => False
  end.
Proof.
  destruct (PerceiverModel_init init0 "perceiver" config0 None None None)
    as [self|e] eqn:E.
  - assert (Hc : model_config self = config0 /\ input_preprocessor self = None).
    { unfold PerceiverModel_init in E. apply bind_Ok in E as (enc & _ & E).
      by inversion E. }
    destruct Hc as [Hc Hp]. split.
    + assert (Hev : preprocess_events self = []) by (unfold preprocess_events; by rewrite Hp).
      pose proof (proj1 (forward_checks_trailing_dimension_first keep_all identity_mask
               no_head_mask self (TensorInput (zeros [1; 3; 5])) None None None None None
               (zeros [1; 3; 5]) None None 5
               ltac:(unfold preprocessed; rewrite Hp; done) eq_refl)) as H.
      rewrite Hev in H. apply H. rewrite Hc. simpl. lia.
    + apply (proj2 (forward_checks_trailing_dimension_first keep_all identity_mask
               no_head_mask self (TensorInput (zeros [1; 3; 4])) None None None None None
               (zeros [1; 3; 4]) None None 4
               ltac:(unfold preprocessed; rewrite Hp; done) eq_refl)).
      by rewrite Hc.
  - vm_compute in E. discriminate.
Defined.

(** ** Fourier features and the batch *)

Lemma fourier_features_use_first_batch_element_witness :
  match generate_fourier_features (zeros [2; 3; 2]) 2 [4; 4] true false,
        generate_fourier_features
          (Tensor [2; 3; 2] (fun idx => match idx with 0 :: _ => 0%R | _ => 1%R end))
          2 [4; 4] true false with
  | Ok t1, Ok t2 => shape t1 = shape t2
  | _, _ => False
  end.
Proof.
  destruct (generate_fourier_features (zeros [2; 3; 2]) 2 [4; 4] true false)
    as [t1|e1] eqn:E1; [|vm_compute in E1; discriminate].
  destruct (generate_fourier_features
              (Tensor [2; 3; 2] (fun idx => match idx with 0 :: _ => 0%R | _ => 1%R end))
              2 [4; 4] true false) as [t2|e2] eqn:E2; [|vm_compute in E2; discriminate].
  exact (proj1 (fourier_features_use_first_batch_element (zeros [2; 3; 2])
           (Tensor [2; 3; 2] (fun idx => match idx with 0 :: _ => 0%R | _ => 1%R end))
           2 3 2 2 [4; 4] true false t1 t2 eq_refl eq_refl eq_refl
           (fun i a _ _ => eq_refl) E1 E2)).
Defined.
